(** * onlyhw.py: a Telegram relay bot with a per-user token budget

    Shallow embedding of [src/onlyhw.py].  The module-level dictionary
    [user_contexts] is a finite map from user ids to sessions; the four
    aiogram handlers and [generate_response] are programs of a small
    state-and-exception monad whose state is that dictionary together with
    the trace of calls made to the outside world (replies, completion
    requests, log records).  What the outside world answers (the completion
    API's response or exception, a failure of [message.reply]) is given by
    an oracle, so that every handler is an executable function.

    A handler is one asyncio task.  [dispatch] and [run] describe handlers
    that each run to completion before the next starts; [step_exec] and
    [run_tasks] describe the general case, where a [handle_message]
    suspended at the completion request lets other handlers run before it
    resumes. *)

From Stdlib Require Import ZArith String List Lia.
From stdpp Require Import base option gmap strings list.

Local Open Scope Z_scope.
Local Open Scope string_scope.

(** ** Exceptions

    The classes that can reach the [except] clauses of the handlers, with
    their direct base class.  The [openai] classes are those of
    openai-python 1.x, the releases that export [AsyncOpenAI]:
    [APIError(OpenAIError)], [APIStatusError(APIError)],
    [APIConnectionError(APIError)], [AuthenticationError(APIStatusError)],
    [RateLimitError(APIStatusError)].  [CancelledError] is asyncio's, which
    derives from [BaseException] and not from [Exception]. *)

Inductive ExcClass : Type :=
  | BaseException
  | Exception
  | CancelledError
  | AttributeError
  | LookupError
  | IndexError
  | KeyError
  | AiogramError
  | OpenAIError
  | APIError
  | APIConnectionError
  | APIStatusError
  | AuthenticationError
  | RateLimitError.

#[global] Instance ExcClass_eq_dec : EqDecision ExcClass.
Proof. solve_decision. Defined.

Definition base (c : ExcClass) : option ExcClass :=
  match c with
  | BaseException => None
  | Exception => Some BaseException
  | CancelledError => Some BaseException
  | AttributeError => Some Exception
  | LookupError => Some Exception
  | IndexError => Some LookupError
  | KeyError => Some LookupError
  | AiogramError => Some Exception
  | OpenAIError => Some Exception
  | APIError => Some OpenAIError
  | APIConnectionError => Some APIError
  | APIStatusError => Some APIError
  | AuthenticationError => Some APIStatusError
  | RateLimitError => Some APIStatusError
  end.

(** [issubclass_fuel n c d]: [d] is reached from [c] in at most [n] steps
    along [base]. *)
Fixpoint issubclass_fuel (n : nat) (c d : ExcClass) : bool :=
  bool_decide (c = d) ||
  match n with
  | O => false
  | S n' => match base c with
            | Some b => issubclass_fuel n' b d
            | None => false
            end
  end.

(** The hierarchy is five levels deep below [BaseException]. *)
Definition issubclass (c d : ExcClass) : bool := issubclass_fuel 5 c d.

(** ** Data *)

Inductive Role : Type := system | user | assistant.

#[global] Instance Role_eq_dec : EqDecision Role.
Proof. solve_decision. Defined.

(** One entry of a conversation: [{"role": r, "content": c}]. *)
Record Turn : Type := mkTurn { role : Role; content : string }.

#[global] Instance Turn_eq_dec : EqDecision Turn.
Proof. solve_decision. Defined.

(** A value of [user_contexts]: [{"context": [...], "tokens": n}]. *)
Record Session : Type := mkSession { context : list Turn; tokens : Z }.

(** What the handlers read of an aiogram [Message]: [message.from_user.id]
    ([None] when the message has no sender, where the attribute access
    raises [AttributeError]) and [message.text]. *)
Record Message : Type := mkMessage { from_user_id : option Z; text : string }.

(** What [generate_response] reads of a [ChatCompletion]:
    [choices[i].message.content] for each choice, and
    [usage.total_tokens] ([None] when [usage] is absent). *)
Record ChatCompletion : Type :=
  mkChatCompletion { choices : list string; usage_total_tokens : option Z }.

(** ** Observable calls *)

Inductive Level : Type := INFO | WARNING | ERROR.

(** The log records of the source, one constructor per format string, with
    the interpolated values. *)
Inductive LogMsg : Type :=
  | StartCommandFrom (user_id : Z)
  | RegisteredNewUser (user_id : Z)
  | GreetingExistingUser (user_id : Z)
  | ErrorInStartCommand (e : ExcClass)
  | TokensCommandFrom (user_id : Z)
  | TokensReset (user_id : Z)
  | CantResetTokens (user_id : Z)
  | ErrorInTokensCommand (e : ExcClass)
  | CleanCommandFrom (user_id : Z)
  | ContextCleared (user_id : Z)
  | CantClearContext (user_id : Z)
  | ErrorInCleanCommand (e : ExcClass)
  | NewMessageFrom (user_id : Z) (user_message : string)
  | NoFreeTokens (user_id : Z)
  | RepliedToMessage (user_id : Z) (user_message response : string)
  | ErrorInHandleMessage (e : ExcClass)
  | NewStats (user_id tokens_used : Z) (context_length : nat)
  | OpenAIAPIError (e : ExcClass)
  | OpenAIRateLimitError (e : ExcClass)
  | OpenAIAuthenticationError (e : ExcClass)
  | UnexpectedErrorInGenerateResponse (e : ExcClass).

Inductive Event : Type :=
  | Log (lvl : Level) (msg : LogMsg)
  | Reply (txt : string)                     (* message.reply(txt) *)
  | CompletionsCreate (messages : list Turn) (* client.chat.completions.create *).

(** ** The outside world *)

Inductive Outcome (A : Type) : Type :=
  | Ret (a : A)
  | Raise (e : ExcClass).
Arguments Ret {A} a.
Arguments Raise {A} e.

(** The answers of the outside world during one handler invocation. *)
Record World : Type := mkWorld {
  chat_completions_create : list Turn -> Outcome ChatCompletion;
  message_reply : string -> option ExcClass  (* [Some e]: the call raises [e] *)
}.

(** ** The monad: state, trace and exceptions

    A raised exception keeps the state reached so far: Python does not roll
    back the mutations made before the [raise]. *)

Record State : Type := mkState {
  user_contexts : gmap Z Session;
  trace : list Event
}.

Definition M (A : Type) : Type := World -> State -> Outcome A * State.

Definition ret {A} (a : A) : M A := fun _ st => (Ret a, st).

Definition raise {A} (e : ExcClass) : M A := fun _ st => (Raise e, st).

Definition bind {A B} (m : M A) (k : A -> M B) : M B :=
  fun w st =>
    match m w st with
    | (Ret a, st') => k a w st'
    | (Raise e, st') => (Raise e, st')
    end.

Declare Scope py_scope.
Delimit Scope py_scope with py.
Notation "x <- m ;; k" := (bind m (fun x => k))
  (at level 100, m at next level, right associativity) : py_scope.
Notation "m ;; k" := (bind m (fun _ => k))
  (at level 100, right associativity) : py_scope.
Local Open Scope py_scope.

Definition emit (ev : Event) : M unit :=
  fun _ st => (Ret tt, mkState (user_contexts st) (trace st ++ [ev])).

Definition get_contexts : M (gmap Z Session) :=
  fun _ st => (Ret (user_contexts st), st).

Definition put_contexts (d : gmap Z Session) : M unit :=
  fun _ st => (Ret tt, mkState d (trace st)).

(** [try: body except C1: h1 except C2: h2 ...]: the first clause whose
    class the raised exception is an instance of handles it; with no such
    clause the exception propagates. *)
Fixpoint select_clause {A} (e : ExcClass)
    (clauses : list (ExcClass * (ExcClass -> M A))) : M A :=
  match clauses with
  | [] => raise e
  | (c, h) :: rest => if issubclass e c then h e else select_clause e rest
  end.

Definition try_except {A} (body : M A)
    (clauses : list (ExcClass * (ExcClass -> M A))) : M A :=
  fun w st =>
    match body w st with
    | (Ret a, st') => (Ret a, st')
    | (Raise e, st') => select_clause e clauses w st'
    end.

(** *** Primitive operations of the source *)

Definition logger (lvl : Level) (msg : LogMsg) : M unit := emit (Log lvl msg).

(** [message.from_user.id] *)
Definition message_from_user_id (message : Message) : M Z :=
  match from_user_id message with
  | Some i => ret i
  | None => raise AttributeError
  end.

(** [await message.reply(txt)] *)
Definition reply (txt : string) : M unit :=
  emit (Reply txt) ;;
  fun w st => match message_reply w txt with
              | None => (Ret tt, st)
              | Some e => (Raise e, st)
              end.

(** [user_id in user_contexts] *)
Definition contains (user_id : Z) : M bool :=
  d <- get_contexts ;;
  ret (match d !! user_id with Some _ => true | None => false end).

(** [user_contexts[user_id]] as an rvalue: [KeyError] when absent. *)
Definition getitem (user_id : Z) : M Session :=
  d <- get_contexts ;;
  match d !! user_id with
  | Some s => ret s
  | None => raise KeyError
  end.

(** [user_contexts[user_id] = s] *)
Definition setitem (user_id : Z) (s : Session) : M unit :=
  d <- get_contexts ;;
  put_contexts (<[user_id := s]> d).

(** [user_contexts[user_id]["context"] = c]: the session is looked up, then
    its field is assigned in place. *)
Definition set_context (user_id : Z) (c : list Turn) : M unit :=
  s <- getitem user_id ;;
  setitem user_id (mkSession c (tokens s)).

(** [user_contexts[user_id]["tokens"] = n] *)
Definition set_tokens (user_id : Z) (n : Z) : M unit :=
  s <- getitem user_id ;;
  setitem user_id (mkSession (context s) n).

(** [user_contexts[user_id]["context"].append(t)] *)
Definition context_append (user_id : Z) (t : Turn) : M unit :=
  s <- getitem user_id ;;
  setitem user_id (mkSession (context s ++ [t]) (tokens s)).

(** ** The handlers *)

Definition start_command (message : Message) : M unit :=
  try_except
    (user_id <- message_from_user_id message ;;
     logger INFO (StartCommandFrom user_id) ;;
     known <- contains user_id ;;
     (if negb known then
        setitem user_id (mkSession [] 1000) ;;
        logger INFO (RegisteredNewUser user_id)
      else
        logger INFO (GreetingExistingUser user_id)) ;;
     reply "Привет! Я бот-пират. Чем могу помочь?")
    [(Exception, fun e => logger ERROR (ErrorInStartCommand e))].

Definition tokens_command (message : Message) : M unit :=
  try_except
    (user_id <- message_from_user_id message ;;
     logger INFO (TokensCommandFrom user_id) ;;
     known <- contains user_id ;;
     if known then
       set_tokens user_id 1000 ;;
       logger INFO (TokensReset user_id) ;;
       reply "Ваши токены пополнены до 1000."
     else
       logger WARNING (CantResetTokens user_id) ;;
       reply "Ошибка: пользователь не найден.")
    [(Exception, fun e => logger ERROR (ErrorInTokensCommand e))].

Definition clean_command (message : Message) : M unit :=
  try_except
    (user_id <- message_from_user_id message ;;
     logger INFO (CleanCommandFrom user_id) ;;
     known <- contains user_id ;;
     if known then
       set_context user_id [] ;;
       logger INFO (ContextCleared user_id) ;;
       reply "Контекст очищен."
     else
       logger WARNING (CantClearContext user_id) ;;
       reply "Ошибка: пользователь не найден.")
    [(Exception, fun e => logger ERROR (ErrorInCleanCommand e))].

(** [await client.chat.completions.create(model=..., messages=messages)] *)
Definition completions_create (messages : list Turn) : M ChatCompletion :=
  emit (CompletionsCreate messages) ;;
  fun w st => (chat_completions_create w messages, st).

(** [response.choices[0].message.content]: [IndexError] on an empty list. *)
Definition first_choice_content (response : ChatCompletion) : M string :=
  match choices response with
  | c :: _ => ret c
  | [] => raise IndexError
  end.

(** [response.usage.total_tokens]: [AttributeError] when [usage] is [None]. *)
Definition usage_total (response : ChatCompletion) : M Z :=
  match usage_total_tokens response with
  | Some n => ret n
  | None => raise AttributeError
  end.

(** [user_contexts[user_id]["tokens"] -= n] *)
Definition sub_tokens (user_id : Z) (n : Z) : M unit :=
  s <- getitem user_id ;;
  setitem user_id (mkSession (context s) (tokens s - n)).

Definition generate_response (user_id : Z) (message : string) : M string :=
  try_except
    (context_append user_id (mkTurn user message) ;;
     s <- getitem user_id ;;
     response <- completions_create
       (mkTurn system "Ты - бот-пират. Отвечай как пират." :: context s) ;;
     assistant_response <- first_choice_content response ;;
     context_append user_id (mkTurn assistant assistant_response) ;;
     tokens_used <- usage_total response ;;
     sub_tokens user_id tokens_used ;;
     s' <- getitem user_id ;;
     logger INFO (NewStats user_id tokens_used (length (context s'))) ;;
     ret assistant_response)
    [(APIError, fun e =>
        logger ERROR (OpenAIAPIError e) ;;
        ret "Извините, произошла ошибка при обращении к API. Попробуйте позже.");
     (RateLimitError, fun e =>
        logger ERROR (OpenAIRateLimitError e) ;;
        ret "Извините, достигнут лимит запросов. Попробуйте позже.");
     (AuthenticationError, fun e =>
        logger ERROR (OpenAIAuthenticationError e) ;;
        ret "Извините, произошла ошибка аутентификации. Обратитесь к администратору.");
     (Exception, fun e =>
        logger ERROR (UnexpectedErrorInGenerateResponse e) ;;
        ret "Извините, произошла неожиданная ошибка. Попробуйте позже.")].

(** [user_id not in user_contexts or user_contexts[user_id]["tokens"] <= 0],
    with Python's short-circuit [or]. *)
Definition no_free_tokens (user_id : Z) : M bool :=
  known <- contains user_id ;;
  if negb known then ret true
  else s <- getitem user_id ;; ret (tokens s <=? 0)%Z.

Definition handle_message (message : Message) : M unit :=
  try_except
    (user_id <- message_from_user_id message ;;
     let user_message := text message in
     logger INFO (NewMessageFrom user_id user_message) ;;
     blocked <- no_free_tokens user_id ;;
     if blocked then
       logger WARNING (NoFreeTokens user_id) ;;
       reply "У вас закончились токены. Используйте /tokens для пополнения."
     else
       response <- generate_response user_id user_message ;;
       logger INFO (RepliedToMessage user_id user_message response) ;;
       reply response)
    [(Exception, fun e => logger ERROR (ErrorInHandleMessage e))].

(** ** The dispatcher

    aiogram routes an incoming message to the first registered handler
    whose filter accepts it: the three [Command] filters, then the
    catch-all [@dp.message()].  The routing decision is taken as given. *)

Inductive Update : Type :=
  | CommandStart (message : Message)
  | CommandTokens (message : Message)
  | CommandClean (message : Message)
  | FreeText (message : Message).

Definition dispatch (u : Update) : M unit :=
  match u with
  | CommandStart m => start_command m
  | CommandTokens m => tokens_command m
  | CommandClean m => clean_command m
  | FreeText m => handle_message m
  end.

(** Running a program from a dictionary, with an empty trace. *)
Definition exec {A} (m : M A) (w : World) (d : gmap Z Session)
    : Outcome A * gmap Z Session * list Event :=
  let '(o, st) := m w (mkState d []) in (o, user_contexts st, trace st).

(** The serial schedule: every update is handled to completion, with the
    answers the outside world gives during its handling, before the next
    one starts.  It is one of the schedules of [run_tasks] below
    ([run_is_a_schedule]); the polling loop of aiogram may also start a
    handler while another is suspended. *)
Fixpoint run (us : list (Update * World)) (d : gmap Z Session)
    : gmap Z Session :=
  match us with
  | [] => d
  | (u, w) :: rest => run rest (exec (dispatch u) w d).1.2
  end.

(** *** Observations on a trace *)

Definition replies (tr : list Event) : list string :=
  omap (fun ev => match ev with Reply t => Some t | _ => None end) tr.

Definition api_calls (tr : list Event) : list (list Turn) :=
  omap (fun ev => match ev with CompletionsCreate ms => Some ms | _ => None end) tr.

(** The fixed texts of the source. *)
Definition greeting_text := "Привет! Я бот-пират. Чем могу помочь?".
Definition tokens_reset_text := "Ваши токены пополнены до 1000.".
Definition context_cleared_text := "Контекст очищен.".
Definition user_not_found_text := "Ошибка: пользователь не найден.".
Definition out_of_tokens_text :=
  "У вас закончились токены. Используйте /tokens для пополнения.".
Definition persona_text := "Ты - бот-пират. Отвечай как пират.".
Definition api_error_text :=
  "Извините, произошла ошибка при обращении к API. Попробуйте позже.".
Definition rate_limit_text :=
  "Извините, достигнут лимит запросов. Попробуйте позже.".
Definition authentication_text :=
  "Извините, произошла ошибка аутентификации. Обратитесь к администратору.".
Definition unexpected_text :=
  "Извините, произошла неожиданная ошибка. Попробуйте позже.".

(** ** Vocabulary of the statements *)

(** The dictionary after a completed exchange and after a failed request. *)
Definition recorded (d : gmap Z Session) (uid : Z) (s : Session)
    (msg answer : string) (n : Z) : gmap Z Session :=
  <[uid := mkSession (context s ++ [mkTurn user msg; mkTurn assistant answer])
                     (tokens s - n)]> d.

Definition half_recorded (d : gmap Z Session) (uid : Z) (s : Session)
    (msg : string) : gmap Z Session :=
  <[uid := mkSession (context s ++ [mkTurn user msg]) (tokens s)]> d.

(** The request sent for [msg] from a session [s]. *)
Definition request (s : Session) (msg : string) : list Turn :=
  mkTurn system persona_text :: context s ++ [mkTurn user msg].

Definition message_of (u : Update) : Message :=
  match u with
  | CommandStart m | CommandTokens m | CommandClean m | FreeText m => m
  end.

(** The record logged by the [except Exception] clause of each handler. *)
Definition handler_error (u : Update) (e : ExcClass) : LogMsg :=
  match u with
  | CommandStart _ => ErrorInStartCommand e
  | CommandTokens _ => ErrorInTokensCommand e
  | CommandClean _ => ErrorInCleanCommand e
  | FreeText _ => ErrorInHandleMessage e
  end.

(** The outside world raises only exceptions deriving from [Exception]. *)
Definition raises_exceptions_only (w : World) : Prop :=
  (forall ms e, chat_completions_create w ms = Raise e ->
     issubclass e Exception = true) /\
  (forall t e, message_reply w t = Some e -> issubclass e Exception = true).

(** The sender of an update, when it has one. *)
Definition sender (u : Update) : option Z := from_user_id (message_of u).


(** [u] is a [/tokens] command sent by [uid]. *)
Definition tokens_from (uid : Z) (u : Update) : Prop :=
  exists message, u = CommandTokens message /\ from_user_id message = Some uid.



(** ** Handlers that overlap

    Polling starts one task per update, and a task suspended at an
    [await] lets the others run.  After the [await]s on [message.reply]
    (lines 52, 66, 69, 83, 86, 100, 106) a handler only logs, so those
    resumptions are kept in the segment that makes the call.  After the
    [await] on the completion request (line 115) [generate_response] goes
    on reading and writing [user_contexts]: [handle_message] is cut there
    in two segments.  The second segment looks the session up again
    ([user_contexts[user_id]] at lines 124 and 128), so it sees what the
    handlers that ran in between have written. *)

(** A [handle_message] suspended at line 115: its [user_id] and
    [user_message], and the [messages] it passed to [create]. *)
Record Pending : Type := mkPending {
  pending_user : Z;
  pending_message : string;
  pending_request : list Turn
}.

(** The [except] clauses of [generate_response], lines 133-144. *)
Definition generate_response_clauses : list (ExcClass * (ExcClass -> M string)) :=
  [(APIError, fun e =>
      logger ERROR (OpenAIAPIError e) ;;
      ret "Извините, произошла ошибка при обращении к API. Попробуйте позже.");
   (RateLimitError, fun e =>
      logger ERROR (OpenAIRateLimitError e) ;;
      ret "Извините, достигнут лимит запросов. Попробуйте позже.");
   (AuthenticationError, fun e =>
      logger ERROR (OpenAIAuthenticationError e) ;;
      ret "Извините, произошла ошибка аутентификации. Обратитесь к администратору.");
   (Exception, fun e =>
      logger ERROR (UnexpectedErrorInGenerateResponse e) ;;
      ret "Извините, произошла неожиданная ошибка. Попробуйте позже.")].

(** Lines 113-121, up to the call of [create]: the messages passed. *)
Definition generate_response_send (user_id : Z) (message : string)
    : M (list Turn) :=
  context_append user_id (mkTurn user message) ;;
  s <- getitem user_id ;;
  let messages := mkTurn system "Ты - бот-пират. Отвечай как пират." :: context s in
  emit (CompletionsCreate messages) ;;
  ret messages.

(** Lines 123-132, from the response on. *)
Definition generate_response_record (user_id : Z) (response : ChatCompletion)
    : M string :=
  assistant_response <- first_choice_content response ;;
  context_append user_id (mkTurn assistant assistant_response) ;;
  tokens_used <- usage_total response ;;
  sub_tokens user_id tokens_used ;;
  s' <- getitem user_id ;;
  logger INFO (NewStats user_id tokens_used (length (context s'))) ;;
  ret assistant_response.

(** The first segment of [generate_response]: [inl messages] when it is
    suspended at the request, [inr text] when an [except] clause returned
    [text] before any request was made. *)
Definition generate_response_begin (user_id : Z) (message : string)
    : M (list Turn + string) :=
  try_except
    (messages <- generate_response_send user_id message ;; ret (inl messages))
    (map (fun ch : ExcClass * (ExcClass -> M string) =>
            (ch.1, fun e => response <- ch.2 e ;; ret (inr response)))
         generate_response_clauses).

(** What the awaited call gives when the task is resumed. *)
Definition resumed {A} (o : Outcome A) : M A := fun _ st => (o, st).

(** The second segment of [generate_response], inside the same [try]. *)
Definition generate_response_resume (user_id : Z)
    (o : Outcome ChatCompletion) : M string :=
  try_except
    (response <- resumed o ;; generate_response_record user_id response)
    generate_response_clauses.

(** The first segment of [handle_message]: [Some p] when it is suspended
    at the completion request, [None] when it has finished. *)
Definition handle_message_begin (message : Message) : M (option Pending) :=
  try_except
    (user_id <- message_from_user_id message ;;
     let user_message := text message in
     logger INFO (NewMessageFrom user_id user_message) ;;
     blocked <- no_free_tokens user_id ;;
     if blocked then
       logger WARNING (NoFreeTokens user_id) ;;
       reply "У вас закончились токены. Используйте /tokens для пополнения." ;;
       ret None
     else
       progress <- generate_response_begin user_id user_message ;;
       match progress with
       | inl messages => ret (Some (mkPending user_id user_message messages))
       | inr response =>
           logger INFO (RepliedToMessage user_id user_message response) ;;
           reply response ;;
           ret None
       end)
    [(Exception, fun e => logger ERROR (ErrorInHandleMessage e) ;; ret None)].

(** The second segment of [handle_message], resumed with the outcome of
    the request. *)
Definition handle_message_resume (p : Pending) (o : Outcome ChatCompletion)
    : M unit :=
  try_except
    (response <- generate_response_resume (pending_user p) o ;;
     logger INFO (RepliedToMessage (pending_user p) (pending_message p) response) ;;
     reply response)
    [(Exception, fun e => logger ERROR (ErrorInHandleMessage e))].

(** The first segment of any handler. *)
Definition arrive (u : Update) : M (option Pending) :=
  match u with
  | FreeText m => handle_message_begin m
  | _ => dispatch u ;; ret None
  end.

(** The dictionary and the suspended handlers. *)
Record Config : Type := mkConfig {
  dict : gmap Z Session;
  waiting : list Pending
}.

(** What the event loop does next: it starts the handler of an update
    that arrived, or it resumes the [i]-th suspended handler with the
    outcome [o] of its request.  [w] answers the replies of the segment. *)
Inductive Step : Type :=
  | Arrive (u : Update) (w : World)
  | Complete (i : nat) (o : Outcome ChatCompletion) (w : World).

(** One segment: the configuration after it and the calls it made. *)
Definition step_exec (st : Step) (c : Config) : Config * list Event :=
  match st with
  | Arrive u w =>
      let r := exec (arrive u) w (dict c) in
      (mkConfig r.1.2
         (match r.1.1 with
          | Ret (Some p) => waiting c ++ [p]
          | _ => waiting c
          end)%list,
       r.2)
  | Complete i o w =>
      match waiting c !! i with
      | Some p =>
          let r := exec (handle_message_resume p o) w (dict c) in
          (mkConfig r.1.2 (delete i (waiting c)), r.2)
      | None => (c, [])
      end
  end.

Fixpoint run_tasks (ss : list Step) (c : Config) : Config :=
  match ss with
  | [] => c
  | st :: rest => run_tasks rest (step_exec st c).1
  end.

(** The process starts with an empty dictionary and no handler running. *)
Definition initial : Config := mkConfig ∅ [].

(** The serial schedule of one update: its first segment, then at once
    the second one if the handler got suspended. *)
Definition serial_steps (u : Update) (w : World) (d : gmap Z Session)
    : list Step :=
  match (exec (arrive u) w d).1.1 with
  | Ret (Some p) =>
      [Arrive u w; Complete 0 (chat_completions_create w (pending_request p)) w]
  | _ => [Arrive u w]
  end.

Fixpoint serial_schedule (us : list (Update * World)) (d : gmap Z Session)
    : list Step :=
  match us with
  | [] => []
  | (u, w) :: rest =>
      (serial_steps u w d ++ serial_schedule rest (exec (dispatch u) w d).1.2)%list
  end.

(** [st] starts a [/tokens] of [uid]. *)
Definition step_tokens_from (uid : Z) (st : Step) : Prop :=
  exists u w, st = Arrive u w /\ tokens_from uid u.

(** No stored turn has the [system] role. *)
Definition no_system_turn (l : list Turn) : Prop :=
  Forall (fun t => role t <> system) l.

(** The session a resumed handler leaves, from the session it finds:
    with a reply in the response the assistant turn is appended, and with
    a usage as well the budget is charged (lines 123-128). *)
Definition resumed_session (o : Outcome ChatCompletion) (s : Session) : Session :=
  match o with
  | Ret r =>
      match choices r with
      | answer :: _ =>
          mkSession (context s ++ [mkTurn assistant answer])
                    (match usage_total_tokens r with
                     | Some n => tokens s - n
                     | None => tokens s
                     end)
      | [] => s
      end
  | Raise _ => s
  end.

(** ** The entry point

    [main] logs, awaits [dp.start_polling(bot)], which returns or raises
    when polling ends, logs an [Exception] it catches, and in every case
    logs that the bot stopped ([finally]). *)

Inductive MainLog : Type :=
  | BotStartedPolling
  | ErrorInMainFunction (e : ExcClass)
  | BotStopped.

Definition main (start_polling : Outcome unit)
    : Outcome unit * list (Level * MainLog) :=
  let tried := (start_polling, [(INFO, BotStartedPolling)]) in
  let handled :=
    match tried with
    | (Raise e, tr) =>
        if issubclass e Exception
        then (Ret tt, (tr ++ [(ERROR, ErrorInMainFunction e)])%list)
        else (Raise e, tr)
    | (Ret _, tr) => (Ret tt, tr)
    end in
  (handled.1, (handled.2 ++ [(WARNING, BotStopped)])%list).

(** ** Sample inputs *)

Definition quiet_world : World :=
  mkWorld (fun _ => Ret (mkChatCompletion ["Arrr"] (Some 10))) (fun _ => None).

Definition world_usage (n : Z) : World :=
  mkWorld (fun _ => Ret (mkChatCompletion ["Arrr"] (Some n))) (fun _ => None).

Definition world_raising (e : ExcClass) : World :=
  mkWorld (fun _ => Raise e) (fun _ => None).

Definition one_user : gmap Z Session := {[7 := mkSession [] 1000]}.

Definition world_no_choices : World :=
  mkWorld (fun _ => Ret (mkChatCompletion [] (Some 10))) (fun _ => None).

Definition world_reply_fails : World :=
  mkWorld (fun _ => Raise LookupError) (fun _ => Some AiogramError).

(** [/start] of user 7, then a message of user 7 left waiting for its
    response. *)
Definition start_and_one_message : list Step :=
  [Arrive (CommandStart (mkMessage (Some 7) "/start")) quiet_world;
   Arrive (FreeText (mkMessage (Some 7) "hi")) quiet_world].

(** ** Symbolic execution *)

Ltac py_unfold :=
  unfold exec, dispatch, start_command, tokens_command, clean_command,
    handle_message, generate_response, no_free_tokens, try_except,
    completions_create, first_choice_content, usage_total, sub_tokens,
    context_append, set_tokens, set_context, setitem, getitem, contains,
    reply, message_from_user_id, logger, emit, get_contexts, put_contexts,
    bind, ret, raise in *.

Ltac py_step :=
  match goal with
  | H : ?x = _ |- context [match ?x with _ => _ end] => rewrite H
  | |- context [<[?k := _]> _ !! ?k] => rewrite lookup_insert_eq
  | |- context [match message_reply ?w ?t with _ => _ end] =>
      destruct (message_reply w t) eqn:?
  | |- context [issubclass ?e ?c] =>
      let b := eval vm_compute in (issubclass e c) in
      match b with
      | true => change (issubclass e c) with true
      | false => change (issubclass e c) with false
      end
  | |- context [if issubclass ?e ?c then _ else _] =>
      destruct (issubclass e c) eqn:?
  | _ => progress (cbn [select_clause negb fst snd user_contexts trace
                        context tokens app] in * )
  | _ => progress (unfold logger, emit, bind, ret, raise in * )
  end.

Ltac py_run := py_unfold; repeat py_step.

(** Case analysis on everything a handler's path depends on. *)
Ltac py_case :=
  match goal with
  | |- context [match from_user_id ?m with _ => _ end] =>
      destruct (from_user_id m) eqn:?
  | |- context [match ?d !! ?k with _ => _ end] => destruct (d !! k) eqn:?
  | |- context [if (?a <=? ?b)%Z then _ else _] => destruct (a <=? b)%Z eqn:?
  | |- context [match chat_completions_create ?w ?ms with _ => _ end] =>
      destruct (chat_completions_create w ms) eqn:?
  | |- context [match choices ?r with _ => _ end] => destruct (choices r) eqn:?
  | |- context [match usage_total_tokens ?r with _ => _ end] =>
      destruct (usage_total_tokens r) eqn:?
  end.

Ltac py_paths := py_unfold; repeat (py_step || py_case).

Ltac trace_inv H :=
  repeat (apply elem_of_cons in H as [H|H]; [try discriminate H|]);
  try (apply elem_of_nil in H; contradiction).

(** The session of the sender after one update, case by case. *)
Ltac py_sender u Hs :=
  unfold sender in Hs;
  destruct u as [?m|?m|?m|?m]; cbn [dispatch message_of] in *; py_paths;
  rewrite ?lookup_insert_eq.

Ltac task_unfold :=
  unfold step_exec, arrive, handle_message_begin, handle_message_resume,
    generate_response_begin, generate_response_resume, generate_response_send,
    generate_response_record, generate_response_clauses, resumed in *.

Ltac task_step :=
  first [ py_step
        | progress (cbn [map fst snd pending_user pending_message
                         pending_request dict waiting] in * ) ].

Ltac task_run := task_unfold; py_unfold; repeat task_step.

(** ** Sample runs *)

Example start_new :
  exec (start_command (mkMessage (Some 7) "/start")) quiet_world ∅
  = (Ret tt, {[7 := mkSession [] 1000]},
     [Log INFO (StartCommandFrom 7); Log INFO (RegisteredNewUser 7);
      Reply greeting_text]).
Proof. reflexivity. Qed.

Example text_ok :
  exec (handle_message (mkMessage (Some 7) "hi")) quiet_world
       {[7 := mkSession [] 1000]}
  = (Ret tt,
     {[7 := mkSession [mkTurn user "hi"; mkTurn assistant "Arrr"] 990]},
     [Log INFO (NewMessageFrom 7 "hi");
      CompletionsCreate [mkTurn system persona_text; mkTurn user "hi"];
      Log INFO (NewStats 7 10 2);
      Log INFO (RepliedToMessage 7 "hi" "Arrr");
      Reply "Arrr"]).
Proof. reflexivity. Qed.

Example text_rate_limit :
  exec (handle_message (mkMessage (Some 7) "hi")) (world_raising RateLimitError)
       {[7 := mkSession [] 1000]}
  = (Ret tt,
     {[7 := mkSession [mkTurn user "hi"] 1000]},
     [Log INFO (NewMessageFrom 7 "hi");
      CompletionsCreate [mkTurn system persona_text; mkTurn user "hi"];
      Log ERROR (OpenAIAPIError RateLimitError);
      Log INFO (RepliedToMessage 7 "hi" api_error_text);
      Reply api_error_text]).
Proof. reflexivity. Qed.

(** ** The commands *)

(** C4. [/start] from a user with no session stores a session with an empty
    history and a budget of exactly 1000 under that user's id (and touches
    no other entry); from a user whose session exists it leaves the whole
    dictionary, hence that session's history and budget, unchanged. *)
Theorem start_command_session (message : Message) (w : World)
    (d : gmap Z Session) (uid : Z) :
  from_user_id message = Some uid ->
  (d !! uid = None ->
     (exec (start_command message) w d).1.2 = <[uid := mkSession [] 1000]> d) /\
  (forall s, d !! uid = Some s ->
     (exec (start_command message) w d).1.2 = d).
Proof.
  intros Hid. split.
  - intros Hd. py_run; reflexivity.
  - intros s Hd. py_run; reflexivity.
Qed.

Lemma start_command_session_witness :
  (exec (start_command (mkMessage (Some 7) "/start")) quiet_world ∅).1.2
    = <[7 := mkSession [] 1000]> ∅ /\
  (exec (start_command (mkMessage (Some 7) "/start")) quiet_world
        {[7 := mkSession [mkTurn user "hi"] 3]}).1.2
    = {[7 := mkSession [mkTurn user "hi"] 3]}.
Proof.
  split.
  - exact (proj1 (start_command_session (mkMessage (Some 7) "/start")
                    quiet_world ∅ 7 eq_refl) eq_refl).
  - exact (proj2 (start_command_session (mkMessage (Some 7) "/start")
                    quiet_world {[7 := mkSession [mkTurn user "hi"] 3]} 7 eq_refl)
                 (mkSession [mkTurn user "hi"] 3) eq_refl).
Defined.

(** C5. [/tokens] from a user with a session sets that session's budget to
    exactly 1000 whatever it was and keeps its history; from a user with no
    session it replies with the "user not found" error and leaves the
    dictionary as it was, so no session is created. *)
Theorem tokens_command_session (message : Message) (w : World)
    (d : gmap Z Session) (uid : Z) :
  from_user_id message = Some uid ->
  (forall s, d !! uid = Some s ->
     (exec (tokens_command message) w d).1.2
       = <[uid := mkSession (context s) 1000]> d /\
     replies (exec (tokens_command message) w d).2 = [tokens_reset_text]) /\
  (d !! uid = None ->
     (exec (tokens_command message) w d).1.2 = d /\
     (exec (tokens_command message) w d).1.2 !! uid = None /\
     replies (exec (tokens_command message) w d).2 = [user_not_found_text]).
Proof.
  intros Hid. split.
  - intros s Hd. py_run; split; reflexivity.
  - intros Hd. py_run; repeat split; assumption || reflexivity.
Qed.

Lemma tokens_command_session_witness :
  (exec (tokens_command (mkMessage (Some 7) "/tokens")) quiet_world
        {[7 := mkSession [mkTurn user "hi"] (-40)]}).1.2
    = <[7 := mkSession [mkTurn user "hi"] 1000]>
        {[7 := mkSession [mkTurn user "hi"] (-40)]} /\
  (exec (tokens_command (mkMessage (Some 7) "/tokens")) quiet_world ∅).1.2 = ∅.
Proof.
  split.
  - exact (proj1 (proj1 (tokens_command_session (mkMessage (Some 7) "/tokens")
                           quiet_world {[7 := mkSession [mkTurn user "hi"] (-40)]}
                           7 eq_refl)
                        (mkSession [mkTurn user "hi"] (-40)) eq_refl)).
  - exact (proj1 (proj2 (tokens_command_session (mkMessage (Some 7) "/tokens")
                           quiet_world ∅ 7 eq_refl) eq_refl)).
Defined.

(** C6. [/clean] from a user with a session sets that session's history to
    the empty list and keeps its budget; from a user with no session it
    replies with the "user not found" error and leaves the dictionary as it
    was, so no session is created. *)
Theorem clean_command_session (message : Message) (w : World)
    (d : gmap Z Session) (uid : Z) :
  from_user_id message = Some uid ->
  (forall s, d !! uid = Some s ->
     (exec (clean_command message) w d).1.2
       = <[uid := mkSession [] (tokens s)]> d /\
     replies (exec (clean_command message) w d).2 = [context_cleared_text]) /\
  (d !! uid = None ->
     (exec (clean_command message) w d).1.2 = d /\
     (exec (clean_command message) w d).1.2 !! uid = None /\
     replies (exec (clean_command message) w d).2 = [user_not_found_text]).
Proof.
  intros Hid. split.
  - intros s Hd. py_run; split; reflexivity.
  - intros Hd. py_run; repeat split; assumption || reflexivity.
Qed.

Lemma clean_command_session_witness :
  (exec (clean_command (mkMessage (Some 7) "/clean")) quiet_world
        {[7 := mkSession [mkTurn user "hi"] 12]}).1.2
    = <[7 := mkSession [] 12]> {[7 := mkSession [mkTurn user "hi"] 12]} /\
  (exec (clean_command (mkMessage (Some 7) "/clean")) quiet_world ∅).1.2 = ∅.
Proof.
  split.
  - exact (proj1 (proj1 (clean_command_session (mkMessage (Some 7) "/clean")
                           quiet_world {[7 := mkSession [mkTurn user "hi"] 12]}
                           7 eq_refl)
                        (mkSession [mkTurn user "hi"] 12) eq_refl)).
  - exact (proj1 (proj2 (clean_command_session (mkMessage (Some 7) "/clean")
                           quiet_world ∅ 7 eq_refl) eq_refl)).
Defined.

(** ** Free-text messages *)

(** C2. A free-text message from a user whose session has a budget of at
    most 0 is answered with the fixed "out of tokens" text, no completion
    request is made, and the dictionary (so the user's history and budget)
    stays as it was. *)
Theorem handle_message_out_of_tokens (message : Message) (w : World)
    (d : gmap Z Session) (uid : Z) (s : Session) :
  from_user_id message = Some uid ->
  d !! uid = Some s ->
  tokens s <= 0 ->
  (exec (handle_message message) w d).1.2 = d /\
  replies (exec (handle_message message) w d).2 = [out_of_tokens_text] /\
  api_calls (exec (handle_message message) w d).2 = [].
Proof.
  intros Hid Hd Hle. apply Z.leb_le in Hle.
  py_run; repeat split; reflexivity.
Qed.

Lemma handle_message_out_of_tokens_witness :
  (exec (handle_message (mkMessage (Some 7) "hi")) quiet_world
        {[7 := mkSession [mkTurn user "yo"] (-5)]}).1.2
    = {[7 := mkSession [mkTurn user "yo"] (-5)]} /\
  replies (exec (handle_message (mkMessage (Some 7) "hi")) quiet_world
                {[7 := mkSession [mkTurn user "yo"] (-5)]}).2
    = [out_of_tokens_text] /\
  api_calls (exec (handle_message (mkMessage (Some 7) "hi")) quiet_world
                  {[7 := mkSession [mkTurn user "yo"] (-5)]}).2 = [].
Proof.
  apply (handle_message_out_of_tokens (mkMessage (Some 7) "hi") quiet_world
           {[7 := mkSession [mkTurn user "yo"] (-5)]} 7
           (mkSession [mkTurn user "yo"] (-5))).
  - reflexivity.
  - reflexivity.
  - simpl. lia.
Defined.

(** C1. When the completion request for a registered user's message
    succeeds (the response carries a reply text and a total token usage
    [n]), [generate_response] returns the reply text and leaves the user's
    session with exactly two more turns, the user turn with the message and
    then the assistant turn with the reply text, and with the budget
    decreased by exactly [n], whatever the sign of the result.  Through
    [handle_message], which calls it when the budget is positive, the same
    dictionary results and the reply text is what is sent. *)
Theorem generate_response_success (w : World) (d : gmap Z Session) (uid : Z)
    (msg : string) (s : Session) (r : ChatCompletion) (answer : string)
    (others : list string) (n : Z) :
  d !! uid = Some s ->
  chat_completions_create w (request s msg) = Ret r ->
  choices r = answer :: others ->
  usage_total_tokens r = Some n ->
  (exec (generate_response uid msg) w d).1
    = (Ret answer, recorded d uid s msg answer n) /\
  (forall message, from_user_id message = Some uid -> text message = msg ->
     0 < tokens s ->
     (exec (handle_message message) w d).1.2 = recorded d uid s msg answer n /\
     replies (exec (handle_message message) w d).2 = [answer] /\
     api_calls (exec (handle_message message) w d).2 = [request s msg]).
Proof.
  unfold recorded, request, persona_text. intros Hd Hw Hc Hu. split.
  - py_run. rewrite !insert_insert_eq, <- app_assoc. reflexivity.
  - intros message Hid <- Hpos. apply Z.leb_gt in Hpos.
    py_run; rewrite !insert_insert_eq, <- app_assoc; repeat split; reflexivity.
Qed.

Lemma generate_response_success_witness :
  (exec (generate_response 7 "hi") (world_usage 1500) one_user).1
    = (Ret "Arrr", recorded one_user 7 (mkSession [] 1000) "hi" "Arrr" 1500) /\
  (exec (handle_message (mkMessage (Some 7) "hi")) (world_usage 1500)
        one_user).1.2
    = recorded one_user 7 (mkSession [] 1000) "hi" "Arrr" 1500 /\
  replies (exec (handle_message (mkMessage (Some 7) "hi")) (world_usage 1500)
                one_user).2 = ["Arrr"] /\
  api_calls (exec (handle_message (mkMessage (Some 7) "hi")) (world_usage 1500)
                  one_user).2 = [request (mkSession [] 1000) "hi"].
Proof.
  destruct (generate_response_success (world_usage 1500) one_user 7 "hi"
              (mkSession [] 1000) (mkChatCompletion ["Arrr"] (Some 1500))
              "Arrr" [] 1500 eq_refl eq_refl eq_refl eq_refl) as [Hgen Hhandler].
  split; [exact Hgen|].
  exact (Hhandler (mkMessage (Some 7) "hi") eq_refl eq_refl eq_refl).
Defined.

(** C10. When the completion request for a registered user's message raises
    (any exception), the user's budget is unchanged and the history has
    grown by exactly one turn, the user turn with the message: the turn
    appended before the request stays.  The same dictionary results through
    [handle_message]. *)
Theorem generate_response_failure (w : World) (d : gmap Z Session) (uid : Z)
    (msg : string) (s : Session) (e : ExcClass) :
  d !! uid = Some s ->
  chat_completions_create w (request s msg) = Raise e ->
  (exec (generate_response uid msg) w d).1.2 = half_recorded d uid s msg /\
  (forall message, from_user_id message = Some uid -> text message = msg ->
     0 < tokens s ->
     (exec (handle_message message) w d).1.2 = half_recorded d uid s msg).
Proof.
  unfold half_recorded, request, persona_text. intros Hd Hw. split.
  - py_run; reflexivity.
  - intros message Hid <- Hpos. apply Z.leb_gt in Hpos.
    py_run; reflexivity.
Qed.

Lemma generate_response_failure_witness :
  (exec (generate_response 7 "hi") (world_raising APIConnectionError)
        one_user).1.2
    = half_recorded one_user 7 (mkSession [] 1000) "hi" /\
  (exec (handle_message (mkMessage (Some 7) "hi"))
        (world_raising APIConnectionError) one_user).1.2
    = half_recorded one_user 7 (mkSession [] 1000) "hi".
Proof.
  destruct (generate_response_failure (world_raising APIConnectionError)
              one_user 7 "hi" (mkSession [] 1000) APIConnectionError
              eq_refl eq_refl) as [Hgen Hhandler].
  split; [exact Hgen|].
  exact (Hhandler (mkMessage (Some 7) "hi") eq_refl eq_refl eq_refl).
Defined.

(** No handler but [start_command] adds a key to the dictionary. *)
Lemma dispatch_new_key (u : Update) (w : World) (d : gmap Z Session) (uid : Z) :
  d !! uid = None ->
  (exec (dispatch u) w d).1.2 !! uid <> None ->
  exists message, u = CommandStart message /\ from_user_id message = Some uid.
Proof.
  intros Hd. destruct u as [m|m|m|m]; cbn [dispatch].
  - destruct (from_user_id m) as [v|] eqn:Hid.
    + destruct (decide (v = uid)) as [->|Hne]; [eauto|].
      py_paths; rewrite ?lookup_insert_ne by done; congruence.
    + py_paths; congruence.
  - py_paths; intros Hnew; exfalso; apply Hnew;
      try assumption;
      rewrite ?lookup_insert_ne by congruence; assumption.
  - py_paths; intros Hnew; exfalso; apply Hnew;
      try assumption;
      rewrite ?lookup_insert_ne by congruence; assumption.
  - py_paths; intros Hnew; exfalso; apply Hnew;
      try assumption;
      rewrite ?lookup_insert_ne by congruence; assumption.
Qed.

(** A first free-text message from an unknown user leaves the dictionary
    empty: no session is created for user 7. *)
Lemma first_message_creates_no_session :
  (exec (handle_message (mkMessage (Some 7) "hello")) quiet_world ∅).1.2 !! 7
    = None /\
  exec (handle_message (mkMessage (Some 7) "hello")) quiet_world ∅
    = (Ret tt, ∅,
       [Log INFO (NewMessageFrom 7 "hello"); Log WARNING (NoFreeTokens 7);
        Reply out_of_tokens_text]).
Proof. split; reflexivity. Qed.

(** C7, as the code has it.  A free-text message from a user with no
    session creates no session: the dictionary is unchanged, the user is
    sent the fixed "out of tokens" text and no completion request is made.
    Of all handlers only [/start] adds a session. *)
Theorem handle_message_unknown_user (w : World) (d : gmap Z Session) (uid : Z) :
  d !! uid = None ->
  (forall message, from_user_id message = Some uid ->
     (exec (handle_message message) w d).1.2 = d /\
     replies (exec (handle_message message) w d).2 = [out_of_tokens_text] /\
     api_calls (exec (handle_message message) w d).2 = []) /\
  (forall u, (exec (dispatch u) w d).1.2 !! uid <> None ->
     exists message, u = CommandStart message /\ from_user_id message = Some uid).
Proof.
  intros Hd. split.
  - intros message Hid. py_run; repeat split; reflexivity.
  - intros u. apply dispatch_new_key, Hd.
Qed.

Lemma handle_message_unknown_user_witness :
  (exec (handle_message (mkMessage (Some 7) "hello")) quiet_world
        {[8 := mkSession [] 1000]}).1.2 = {[8 := mkSession [] 1000]}.
Proof.
  exact (proj1 (proj1 (handle_message_unknown_user quiet_world
                         {[8 := mkSession [] 1000]} 7 eq_refl)
                      (mkMessage (Some 7) "hello") eq_refl)).
Defined.

(** ** Errors of the completion API *)

(** Whatever the dictionary, an exception of a class deriving from
    [APIError] raised by the request is answered with the generic API-error
    text: the first [except] clause takes it. *)
Lemma generate_response_api_error (w : World) (d : gmap Z Session) (uid : Z)
    (msg : string) (s : Session) (e : ExcClass) :
  d !! uid = Some s ->
  chat_completions_create w (request s msg) = Raise e ->
  issubclass e APIError = true ->
  (exec (generate_response uid msg) w d).1.1 = Ret api_error_text.
Proof.
  unfold request, persona_text. intros Hd Hw He. py_run. reflexivity.
Qed.

(** C3, at the rate-limit and authentication errors.  Both classes derive
    from [APIError], whose clause comes first, so the request raising either
    of them makes [generate_response] return the generic API-error text,
    which [handle_message] sends; the texts of their own clauses, which
    differ from it, are never returned.  The handler itself returns
    normally. *)
Theorem rate_limit_and_authentication_get_api_error_text :
  (exec (generate_response 7 "hi") (world_raising APIError) one_user).1.1
    = Ret api_error_text /\
  (exec (generate_response 7 "hi") (world_raising RateLimitError) one_user).1.1
    = Ret api_error_text /\
  (exec (generate_response 7 "hi") (world_raising AuthenticationError) one_user).1.1
    = Ret api_error_text /\
  api_error_text <> rate_limit_text /\
  api_error_text <> authentication_text /\
  (exec (handle_message (mkMessage (Some 7) "hi"))
        (world_raising RateLimitError) one_user).1.1 = Ret tt /\
  replies (exec (handle_message (mkMessage (Some 7) "hi"))
                (world_raising RateLimitError) one_user).2 = [api_error_text] /\
  (exec (handle_message (mkMessage (Some 7) "hi"))
        (world_raising AuthenticationError) one_user).1.1 = Ret tt /\
  replies (exec (handle_message (mkMessage (Some 7) "hi"))
                (world_raising AuthenticationError) one_user).2 = [api_error_text].
Proof. repeat split; try reflexivity; discriminate. Qed.

(** ** The budget across a run *)

Lemma run_snoc (us : list (Update * World)) (u : Update) (w : World)
    (d : gmap Z Session) :
  run (us ++ [(u, w)]) d = (exec (dispatch u) w (run us d)).1.2.
Proof.
  revert d. induction us as [|[u0 w0] us IH]; intros d; [reflexivity|].
  cbn [run app]. apply IH.
Qed.

(** A [NewStats] record is logged only by a free-text message of a user
    whose budget was positive, and then the budget has gone down by the
    logged usage. *)
Lemma dispatch_new_stats (u : Update) (w : World) (d : gmap Z Session)
    (uid n : Z) (len : nat) :
  Log INFO (NewStats uid n len) ∈ (exec (dispatch u) w d).2 ->
  exists s s',
    d !! uid = Some s /\
    (exec (dispatch u) w d).1.2 !! uid = Some s' /\
    0 < tokens s /\ tokens s' = tokens s - n.
Proof.
  destruct u as [m|m|m|m]; cbn [dispatch]; py_paths; intros H; trace_inv H.
  all: injection H as <- <- _.
  all: match goal with Hle : (_ <=? 0)%Z = false |- _ => apply Z.leb_gt in Hle end.
  all: eexists; eexists; rewrite ?lookup_insert_eq; repeat split; eauto.
Qed.

(** ** Exceptions in the handlers *)

Lemma not_api_error (e : ExcClass) :
  issubclass e APIError = false ->
  issubclass e RateLimitError = false /\
  issubclass e AuthenticationError = false.
Proof. destruct e; intros H; split; solve [reflexivity | discriminate H]. Qed.

(** Every handler returns normally when nothing but [Exception]s is raised
    at it. *)
Lemma dispatch_returns (u : Update) (w : World) (d : gmap Z Session) :
  raises_exceptions_only w -> (exec (dispatch u) w d).1.1 = Ret tt.
Proof.
  intros [Hapi Hreply].
  destruct u as [m|m|m|m]; cbn [dispatch]; py_paths; try reflexivity.
  all: repeat match goal with
       | H : message_reply _ _ = Some _ |- _ => apply Hreply in H
       | H : chat_completions_create _ _ = Raise _ |- _ => apply Hapi in H
       end; congruence.
Qed.

(** A message without a sender: the [AttributeError] is caught and logged,
    nothing is sent and nothing changes. *)
Lemma dispatch_no_sender (u : Update) (w : World) (d : gmap Z Session) :
  from_user_id (message_of u) = None ->
  exec (dispatch u) w d
    = (Ret tt, d, [Log ERROR (handler_error u AttributeError)]).
Proof.
  destruct u as [m|m|m|m]; cbn [dispatch message_of handler_error];
    intros Hid; py_run; reflexivity.
Qed.

(** A reply that fails with an [Exception]: it was the handler's only
    reply, and the handler's error record is the last thing that happens. *)
Lemma dispatch_reply_fails (u : Update) (w : World) (d : gmap Z Session)
    (t : string) (e : ExcClass) :
  Reply t ∈ (exec (dispatch u) w d).2 ->
  message_reply w t = Some e ->
  issubclass e Exception = true ->
  replies (exec (dispatch u) w d).2 = [t] /\
  last (exec (dispatch u) w d).2 = Some (Log ERROR (handler_error u e)).
Proof.
  destruct u as [m|m|m|m]; cbn [dispatch handler_error]; py_paths;
    intros H Hr He; trace_inv H; injection H as ->;
    simplify_eq; try congruence; split; reflexivity.
Qed.

(** An exception of the request that derives from [Exception] but not from
    [APIError] is caught inside [generate_response], which returns the
    fixed "unexpected error" text; [handle_message] sends that text. *)
Lemma generate_response_unexpected (w : World) (d : gmap Z Session) (uid : Z)
    (msg : string) (s : Session) (e : ExcClass) :
  d !! uid = Some s ->
  chat_completions_create w (request s msg) = Raise e ->
  issubclass e Exception = true ->
  issubclass e APIError = false ->
  (exec (generate_response uid msg) w d).1.1 = Ret unexpected_text /\
  (0 < tokens s ->
   replies (exec (handle_message (mkMessage (Some uid) msg)) w d).2
     = [unexpected_text]).
Proof.
  unfold request, persona_text. intros Hd Hw He Hapi.
  destruct (not_api_error e Hapi) as [Hrl Hau]. split.
  - py_run. reflexivity.
  - intros Hpos. apply Z.leb_gt in Hpos.
    py_unfold. cbn [from_user_id text]. repeat py_step; reflexivity.
Qed.

(** A response without choices, or without usage, makes the reading of it
    raise inside [generate_response]; the "unexpected error" text is
    returned. *)
Lemma generate_response_malformed (w : World) (d : gmap Z Session) (uid : Z)
    (msg : string) (s : Session) (r : ChatCompletion) :
  d !! uid = Some s ->
  chat_completions_create w (request s msg) = Ret r ->
  choices r = [] \/ usage_total_tokens r = None ->
  (exec (generate_response uid msg) w d).1.1 = Ret unexpected_text.
Proof.
  unfold request, persona_text. intros Hd Hw [Hc|Hu].
  - py_run. reflexivity.
  - py_paths; reflexivity.
Qed.

(** An unexpected exception during response generation is answered: with a
    response that has no choices ([IndexError]), and with the request
    raising a plain [Exception], the user is sent the "unexpected error"
    text.  Neither class is one of the three API error classes. *)
Lemma unexpected_error_is_answered :
  exec (handle_message (mkMessage (Some 7) "hi")) world_no_choices one_user
    = (Ret tt, {[7 := mkSession [mkTurn user "hi"] 1000]},
       [Log INFO (NewMessageFrom 7 "hi");
        CompletionsCreate [mkTurn system persona_text; mkTurn user "hi"];
        Log ERROR (UnexpectedErrorInGenerateResponse IndexError);
        Log INFO (RepliedToMessage 7 "hi" unexpected_text);
        Reply unexpected_text]) /\
  replies (exec (handle_message (mkMessage (Some 7) "hi"))
                (world_raising Exception) one_user).2 = [unexpected_text] /\
  replies (exec (handle_message (mkMessage (Some 7) "hi"))
                (world_raising Exception) one_user).2 <> [] /\
  Forall (fun c => c <> IndexError /\ c <> Exception)
         [APIError; RateLimitError; AuthenticationError].
Proof.
  split; [reflexivity|]. split; [reflexivity|]. split; [discriminate|].
  repeat constructor; discriminate.
Qed.

(** C9, as the code has it.  Every handler catches every exception deriving
    from [Exception] that reaches its own [except] clause and returns
    normally; it then only logs: a message without a sender yields the
    error record alone, with no reply and no change, and a reply that fails
    is the only reply of the handling, followed by the error record alone.
    An exception raised by the completion request does not reach that
    clause: [generate_response] catches it, and when it derives from
    [Exception] but not from [APIError] the fixed "unexpected error" text
    is returned and sent to the user. *)
Theorem handlers_catch_exceptions (u : Update) (w : World)
    (d : gmap Z Session) :
  (raises_exceptions_only w -> (exec (dispatch u) w d).1.1 = Ret tt) /\
  (from_user_id (message_of u) = None ->
     exec (dispatch u) w d
       = (Ret tt, d, [Log ERROR (handler_error u AttributeError)])) /\
  (forall t e,
     Reply t ∈ (exec (dispatch u) w d).2 ->
     message_reply w t = Some e ->
     issubclass e Exception = true ->
     replies (exec (dispatch u) w d).2 = [t] /\
     last (exec (dispatch u) w d).2 = Some (Log ERROR (handler_error u e))) /\
  (forall uid msg s e,
     d !! uid = Some s ->
     chat_completions_create w (request s msg) = Raise e ->
     issubclass e Exception = true ->
     issubclass e APIError = false ->
     (exec (generate_response uid msg) w d).1.1 = Ret unexpected_text /\
     (0 < tokens s ->
      replies (exec (handle_message (mkMessage (Some uid) msg)) w d).2
        = [unexpected_text])).
Proof.
  split; [apply dispatch_returns|].
  split; [apply dispatch_no_sender|].
  split; [apply dispatch_reply_fails|].
  intros uid msg s e. apply generate_response_unexpected.
Qed.

Lemma world_reply_fails_exceptions_only :
  raises_exceptions_only world_reply_fails.
Proof.
  split; cbn.
  - intros _ e [= <-]. reflexivity.
  - intros _ e [= <-]. reflexivity.
Defined.

Lemma handlers_catch_exceptions_witness :
  (exec (dispatch (FreeText (mkMessage (Some 7) "hi")))
        world_reply_fails one_user).1.1 = Ret tt /\
  exec (dispatch (CommandClean (mkMessage None "/clean")))
       world_reply_fails one_user
    = (Ret tt, one_user, [Log ERROR (ErrorInCleanCommand AttributeError)]) /\
  last (exec (dispatch (FreeText (mkMessage (Some 7) "hi")))
             world_reply_fails one_user).2
    = Some (Log ERROR (ErrorInHandleMessage AiogramError)) /\
  (exec (generate_response 7 "hi") world_reply_fails one_user).1.1
    = Ret unexpected_text.
Proof.
  split; [|split; [|split]].
  - exact (proj1 (handlers_catch_exceptions
                    (FreeText (mkMessage (Some 7) "hi")) world_reply_fails
                    one_user) world_reply_fails_exceptions_only).
  - exact (proj1 (proj2 (handlers_catch_exceptions
                           (CommandClean (mkMessage None "/clean"))
                           world_reply_fails one_user)) eq_refl).
  - refine (proj2 (proj1 (proj2 (proj2 (handlers_catch_exceptions
                      (FreeText (mkMessage (Some 7) "hi")) world_reply_fails
                      one_user))) unexpected_text AiogramError _ eq_refl eq_refl)).
    vm_compute. set_solver.
  - exact (proj1 (proj2 (proj2 (proj2 (handlers_catch_exceptions
                      (FreeText (mkMessage (Some 7) "hi")) world_reply_fails
                      one_user))) 7 "hi" (mkSession [] 1000) LookupError
                   eq_refl eq_refl eq_refl eq_refl)).
Defined.

(** * Further properties of the handlers *)

(** ** Frame and persistence *)

(** One update touches no session but its sender's. *)
Lemma dispatch_frame (u : Update) (w : World) (d : gmap Z Session) (v : Z) :
  sender u <> Some v ->
  (exec (dispatch u) w d).1.2 !! v = d !! v.
Proof.
  unfold sender.
  destruct u as [m|m|m|m]; cbn [dispatch message_of]; intros Hv; revert Hv;
    py_paths; intros Hv; rewrite ?lookup_insert_ne by congruence; reflexivity.
Qed.






(** ** Invariants of a run *)










Lemma dispatch_stays_blocked (u : Update) (w : World) (d : gmap Z Session)
    (v : Z) (s : Session) :
  ~ tokens_from v u ->
  d !! v = Some s ->
  tokens s <= 0 ->
  exists s', (exec (dispatch u) w d).1.2 !! v = Some s' /\
             tokens s' = tokens s /\
             (sender u = Some v -> api_calls (exec (dispatch u) w d).2 = []).
Proof.
  intros Htok Hd Hle. destruct (decide (sender u = Some v)) as [Hs|Hs].
  - apply Z.leb_le in Hle. unfold sender in Hs.
    destruct u as [m|m|m|m]; cbn [dispatch message_of] in *.
    2: { exfalso. apply Htok. exists m. split; [reflexivity|assumption]. }
    all: py_run; rewrite ?lookup_insert_eq; eexists; repeat split; eauto.
  - exists s. rewrite dispatch_frame by assumption.
    repeat split; [assumption|]. intros Hs'. contradiction.
Qed.

(** ** Calls to the outside world *)

(** X7. Handling one update sends at most one reply and makes at most one
    completion request; the three commands make no request at all. *)
Theorem dispatch_at_most_one_call (u : Update) (w : World)
    (d : gmap Z Session) :
  (length (replies (exec (dispatch u) w d).2) <= 1)%nat /\
  (length (api_calls (exec (dispatch u) w d).2) <= 1)%nat /\
  ((forall message, u <> FreeText message) ->
   api_calls (exec (dispatch u) w d).2 = []).
Proof.
  destruct u as [m|m|m|m]; cbn [dispatch]; py_paths;
    cbn; repeat split; try lia; try reflexivity;
    intros Hc; exfalso; apply (Hc m); reflexivity.
Qed.

Lemma dispatch_at_most_one_call_witness :
  api_calls (exec (dispatch (CommandTokens (mkMessage (Some 7) "/tokens")))
                  quiet_world one_user).2 = [].
Proof.
  apply (dispatch_at_most_one_call (CommandTokens (mkMessage (Some 7) "/tokens"))
           quiet_world one_user).
  discriminate.
Defined.

(** X8. Every update with a sender is answered: when no exception outside
    [Exception] is raised, handling it calls [message.reply] exactly once
    and returns normally, whatever the dictionary holds and whatever the
    completion API does. *)
Theorem dispatch_answers_sender (u : Update) (w : World) (d : gmap Z Session)
    (v : Z) :
  sender u = Some v ->
  raises_exceptions_only w ->
  length (replies (exec (dispatch u) w d).2) = 1%nat /\
  (exec (dispatch u) w d).1.1 = Ret tt.
Proof.
  unfold sender. intros Hs [Hapi Hreply].
  destruct u as [m|m|m|m]; cbn [dispatch message_of] in *; py_paths;
    try (split; reflexivity).
  all: repeat match goal with
       | H : message_reply _ _ = Some _ |- _ => apply Hreply in H
       | H : chat_completions_create _ _ = Raise _ |- _ => apply Hapi in H
       end; congruence.
Qed.

Lemma dispatch_answers_sender_witness :
  length (replies (exec (dispatch (FreeText (mkMessage (Some 7) "hi")))
                        world_reply_fails one_user).2) = 1%nat /\
  (exec (dispatch (FreeText (mkMessage (Some 7) "hi")))
        world_reply_fails one_user).1.1 = Ret tt.
Proof.
  apply (dispatch_answers_sender (FreeText (mkMessage (Some 7) "hi"))
           world_reply_fails one_user 7 eq_refl).
  split; cbn.
  - intros _ e [= <-]. reflexivity.
  - intros _ e [= <-]. reflexivity.
Defined.

(** X9. A completion request is made only for a free-text message of a
    user who has a session with a positive budget, and it carries exactly
    the persona turn, then the whole stored history, then the new message
    as a user turn. *)
Theorem dispatch_request_shape (u : Update) (w : World) (d : gmap Z Session)
    (ms : list Turn) :
  ms ∈ api_calls (exec (dispatch u) w d).2 ->
  exists message uid s,
    u = FreeText message /\ from_user_id message = Some uid /\
    d !! uid = Some s /\ 0 < tokens s /\
    ms = request s (text message).
Proof.
  unfold request, persona_text.
  destruct u as [m|m|m|m]; cbn [dispatch]; py_paths; cbn;
    intros H; trace_inv H; subst ms.
  all: match goal with
       | Hle : (_ <=? 0)%Z = false |- _ => apply Z.leb_gt in Hle
       end.
  all: eexists; eexists; eexists; repeat split; eauto.
Qed.

Lemma dispatch_request_shape_witness :
  exists message uid s,
    FreeText (mkMessage (Some 7) "hi") = FreeText message /\
    from_user_id message = Some uid /\
    ({[7 := mkSession [mkTurn user "a"; mkTurn assistant "b"] 4]}
       : gmap Z Session) !! uid = Some s /\
    0 < tokens s /\
    [mkTurn system persona_text; mkTurn user "a"; mkTurn assistant "b";
     mkTurn user "hi"] = request s (text message).
Proof.
  apply (dispatch_request_shape (FreeText (mkMessage (Some 7) "hi"))
           quiet_world
           {[7 := mkSession [mkTurn user "a"; mkTurn assistant "b"] 4]}).
  vm_compute. set_solver.
Defined.

(** ** Who is registered *)




(** ** Edge cases of response generation *)

(** X11. Called for a user without a session, [generate_response] makes no
    request and creates no session: the [KeyError] of the first line is
    caught by the last clause, the dictionary is unchanged and the
    "unexpected error" text is returned. *)
Theorem generate_response_unknown_user (w : World) (d : gmap Z Session)
    (uid : Z) (msg : string) :
  d !! uid = None ->
  exec (generate_response uid msg) w d
    = (Ret unexpected_text, d,
       [Log ERROR (UnexpectedErrorInGenerateResponse KeyError)]).
Proof. intros Hd. py_run. reflexivity. Qed.

Lemma generate_response_unknown_user_witness :
  exec (generate_response 8 "hi") quiet_world one_user
    = (Ret unexpected_text, one_user,
       [Log ERROR (UnexpectedErrorInGenerateResponse KeyError)]).
Proof.
  apply (generate_response_unknown_user quiet_world one_user 8 "hi").
  reflexivity.
Defined.

(** X12. A response that carries a reply but no usage is stored and not
    charged: both turns are appended to the history, the budget keeps its
    value, and the caller gets the "unexpected error" text instead of the
    reply that was stored. *)
Theorem generate_response_without_usage (w : World) (d : gmap Z Session)
    (uid : Z) (msg : string) (s : Session) (r : ChatCompletion)
    (answer : string) (others : list string) :
  d !! uid = Some s ->
  chat_completions_create w (request s msg) = Ret r ->
  choices r = answer :: others ->
  usage_total_tokens r = None ->
  (exec (generate_response uid msg) w d).1
    = (Ret unexpected_text,
       <[uid := mkSession
                  (context s ++ [mkTurn user msg; mkTurn assistant answer])
                  (tokens s)]> d).
Proof.
  unfold request, persona_text. intros Hd Hw Hc Hu.
  py_run. rewrite !insert_insert_eq, <- app_assoc. reflexivity.
Qed.

Lemma generate_response_without_usage_witness :
  (exec (generate_response 7 "hi")
        (mkWorld (fun _ => Ret (mkChatCompletion ["Arrr"] None)) (fun _ => None))
        one_user).1
    = (Ret unexpected_text,
       <[7 := mkSession [mkTurn user "hi"; mkTurn assistant "Arrr"] 1000]>
         one_user).
Proof.
  apply (generate_response_without_usage
           (mkWorld (fun _ => Ret (mkChatCompletion ["Arrr"] None))
                    (fun _ => None))
           one_user 7 "hi" (mkSession [] 1000) (mkChatCompletion ["Arrr"] None)
           "Arrr" []); reflexivity.
Defined.

(** X13. A response without choices behaves like a failed request: only
    the user turn is appended, the budget keeps its value although the
    response reports a usage, and the "unexpected error" text is
    returned. *)
Theorem generate_response_without_choices (w : World) (d : gmap Z Session)
    (uid : Z) (msg : string) (s : Session) (r : ChatCompletion) :
  d !! uid = Some s ->
  chat_completions_create w (request s msg) = Ret r ->
  choices r = [] ->
  (exec (generate_response uid msg) w d).1
    = (Ret unexpected_text, half_recorded d uid s msg).
Proof.
  unfold request, persona_text, half_recorded. intros Hd Hw Hc.
  py_run. reflexivity.
Qed.

Lemma generate_response_without_choices_witness :
  (exec (generate_response 7 "hi") world_no_choices one_user).1
    = (Ret unexpected_text, half_recorded one_user 7 (mkSession [] 1000) "hi").
Proof.
  apply (generate_response_without_choices world_no_choices one_user 7 "hi"
           (mkSession [] 1000) (mkChatCompletion [] (Some 10)));
    reflexivity.
Defined.

(** X14. An exception that does not derive from [Exception] (a cancelled
    task) is not swallowed: raised by the reply or by the completion
    request, it leaves the handler, nothing is logged about it, and after
    a request that raised it no reply is sent. *)
Theorem dispatch_propagates_non_exception (u : Update) (w : World)
    (d : gmap Z Session) (e : ExcClass) :
  issubclass e Exception = false ->
  (forall t, Reply t ∈ (exec (dispatch u) w d).2 ->
     message_reply w t = Some e ->
     (exec (dispatch u) w d).1.1 = Raise e /\
     last (exec (dispatch u) w d).2 = Some (Reply t)) /\
  (forall ms, ms ∈ api_calls (exec (dispatch u) w d).2 ->
     chat_completions_create w ms = Raise e ->
     (exec (dispatch u) w d).1.1 = Raise e /\
     last (exec (dispatch u) w d).2 = Some (CompletionsCreate ms) /\
     replies (exec (dispatch u) w d).2 = []).
Proof.
  intros He. split.
  - intros t.
    destruct u as [m|m|m|m]; cbn [dispatch]; py_paths;
      intros H Hr; trace_inv H; injection H as ->;
      simplify_eq; try congruence; split; reflexivity.
  - intros ms.
    destruct u as [m|m|m|m]; cbn [dispatch]; py_paths; cbn;
      intros H Hr; trace_inv H; subst ms;
      rewrite Hr in *; simplify_eq; try congruence.
    all: try (repeat split; reflexivity).
    all: exfalso;
      match goal with
      | Hx : issubclass ?x Exception = false |- _ => destruct x; discriminate
      end.
Qed.

Lemma dispatch_propagates_non_exception_witness :
  (exec (dispatch (FreeText (mkMessage (Some 7) "hi")))
        (world_raising CancelledError) one_user).1.1 = Raise CancelledError /\
  replies (exec (dispatch (FreeText (mkMessage (Some 7) "hi")))
                (world_raising CancelledError) one_user).2 = [].
Proof.
  destruct (proj2 (dispatch_propagates_non_exception
                     (FreeText (mkMessage (Some 7) "hi"))
                     (world_raising CancelledError) one_user CancelledError
                     eq_refl)
                  (request (mkSession [] 1000) "hi")) as (Ho & _ & Hr).
  - vm_compute. set_solver.
  - reflexivity.
  - split; assumption.
Defined.

(** ** How the handlers compose *)


Lemma clean_command_dict (message : Message) (w : World) (d : gmap Z Session)
    (uid : Z) (s : Session) :
  from_user_id message = Some uid -> d !! uid = Some s ->
  (exec (clean_command message) w d).1.2 = <[uid := mkSession [] (tokens s)]> d.
Proof. intros Hid Hd. py_run; reflexivity. Qed.








(** X18. The three commands are idempotent on the dictionary: handling
    the same command a second time, in any world, leaves the dictionary
    the first handling produced. *)
Theorem command_idempotent (u : Update) (w1 w2 : World) (d : gmap Z Session) :
  (forall message, u <> FreeText message) ->
  (exec (dispatch u) w2 (exec (dispatch u) w1 d).1.2).1.2
    = (exec (dispatch u) w1 d).1.2.
Proof.
  intros Hcmd. destruct u as [m|m|m|m]; cbn [dispatch].
  4: { exfalso. apply (Hcmd m). reflexivity. }
  all: destruct (from_user_id m) as [z|] eqn:Hid;
       [destruct (d !! z) as [s|] eqn:Hd|].
  all: py_paths; rewrite ?insert_insert_eq; try reflexivity; congruence.
Qed.

Lemma command_idempotent_witness :
  (exec (dispatch (CommandClean (mkMessage (Some 7) "/clean"))) quiet_world
        (exec (dispatch (CommandClean (mkMessage (Some 7) "/clean")))
              world_reply_fails
              {[7 := mkSession [mkTurn user "a"] 30]}).1.2).1.2
  = (exec (dispatch (CommandClean (mkMessage (Some 7) "/clean")))
          world_reply_fails {[7 := mkSession [mkTurn user "a"] 30]}).1.2.
Proof.
  apply (command_idempotent (CommandClean (mkMessage (Some 7) "/clean"))
           world_reply_fails quiet_world
           {[7 := mkSession [mkTurn user "a"] 30]}).
  discriminate.
Defined.

(** ** The entry point *)

(** X19. [main] always logs that the bot stopped, and logs it last.  It
    returns normally exactly when polling returned or raised an exception
    deriving from [Exception], which it logs; any other exception leaves
    [main] after the stop record, without an error record. *)
Theorem main_always_logs_stop (start_polling : Outcome unit) :
  last (main start_polling).2 = Some (WARNING, BotStopped) /\
  ((main start_polling).1 = Ret tt <->
   forall e, start_polling = Raise e -> issubclass e Exception = true) /\
  (forall e, start_polling = Raise e ->
     main start_polling
       = if issubclass e Exception
         then (Ret tt, [(INFO, BotStartedPolling);
                        (ERROR, ErrorInMainFunction e);
                        (WARNING, BotStopped)])
         else (Raise e, [(INFO, BotStartedPolling); (WARNING, BotStopped)])).
Proof.
  unfold main. destruct start_polling as [[]|e].
  - split; [reflexivity|]. split; [|discriminate].
    split; [discriminate|reflexivity].
  - cbv zeta. destruct (issubclass e Exception) eqn:He.
    + split; [reflexivity|]. split.
      * split; [|reflexivity]. intros _ e' [= <-]. exact He.
      * intros e' [= <-]. rewrite He. reflexivity.
    + split; [reflexivity|]. split.
      * split; [discriminate|].
        intros H. specialize (H e eq_refl). congruence.
      * intros e' [= <-]. rewrite He. reflexivity.
Qed.

Lemma main_always_logs_stop_witness :
  main (Raise CancelledError)
    = (Raise CancelledError,
       [(INFO, BotStartedPolling); (WARNING, BotStopped)]) /\
  main (Raise AiogramError)
    = (Ret tt, [(INFO, BotStartedPolling);
                (ERROR, ErrorInMainFunction AiogramError);
                (WARNING, BotStopped)]).
Proof.
  split.
  - exact (proj2 (proj2 (main_always_logs_stop (Raise CancelledError)))
                 CancelledError eq_refl).
  - exact (proj2 (proj2 (main_always_logs_stop (Raise AiogramError)))
                 AiogramError eq_refl).
Defined.

(** * Handlers that overlap *)

(** ** The two segments of [handle_message] *)

(** Run back to back, with the outcome the world gives for the request
    that was sent, the two segments are [handle_message]. *)
Lemma handle_message_segments (m : Message) (w : World) (d : gmap Z Session) :
  exec (handle_message m) w d
  = match exec (handle_message_begin m) w d with
    | (Ret (Some p), d1, tr1) =>
        let r := exec (handle_message_resume p
                         (chat_completions_create w (pending_request p))) w d1 in
        (r.1.1, r.1.2, (tr1 ++ r.2)%list)
    | (Ret None, d1, tr1) => (Ret tt, d1, tr1)
    | (Raise e, d1, tr1) => (Raise e, d1, tr1)
    end.
Proof.
  destruct (from_user_id m) as [z|] eqn:Hid; [|task_run; reflexivity].
  destruct (d !! z) as [s|] eqn:Hd; [|task_run; reflexivity].
  destruct (tokens s <=? 0)%Z eqn:Hle; [task_run; reflexivity|].
  destruct (chat_completions_create w
              (mkTurn system "Ты - бот-пират. Отвечай как пират."
               :: context s ++ [mkTurn user (text m)])) as [r|e] eqn:Hw.
  - destruct (choices r) as [|answer others] eqn:Hc;
      [task_run; reflexivity|].
    destruct (usage_total_tokens r) as [n|] eqn:Hu; task_run; reflexivity.
  - task_run; reflexivity.
Qed.

(** A command handler is one segment. *)
Lemma exec_then_none (m : M unit) (w : World) (d : gmap Z Session) :
  (exec (m ;; ret (@None Pending)) w d).1.2 = (exec m w d).1.2 /\
  (exec (m ;; ret (@None Pending)) w d).2 = (exec m w d).2 /\
  forall p, (exec (m ;; ret (@None Pending)) w d).1.1 <> Ret (Some p).
Proof.
  unfold exec, bind, ret.
  destruct (m w (mkState d [])) as [[a|e] st]; cbn; repeat split; discriminate.
Qed.

Lemma begin_suspended (m : Message) (w : World) (d : gmap Z Session)
    (uid : Z) (s : Session) :
  from_user_id m = Some uid -> d !! uid = Some s -> 0 < tokens s ->
  exec (handle_message_begin m) w d
  = (Ret (Some (mkPending uid (text m) (request s (text m)))),
     half_recorded d uid s (text m),
     [Log INFO (NewMessageFrom uid (text m));
      CompletionsCreate (request s (text m))]).
Proof.
  unfold request, persona_text, half_recorded.
  intros Hid Hd Hpos. apply Z.leb_gt in Hpos. task_run. reflexivity.
Qed.

Lemma begin_finished (m : Message) (w : World) (d : gmap Z Session) :
  (forall uid s, from_user_id m = Some uid -> d !! uid = Some s ->
                 tokens s <= 0) ->
  (exec (handle_message_begin m) w d).1.2 = d /\
  forall p, (exec (handle_message_begin m) w d).1.1 <> Ret (Some p).
Proof.
  intros Hblocked.
  destruct (from_user_id m) as [z|] eqn:Hid;
    [|task_run; split; [reflexivity|discriminate]].
  destruct (d !! z) as [s|] eqn:Hd;
    [|task_run; split; solve [reflexivity|discriminate]].
  pose proof (Hblocked z s eq_refl Hd) as Hle. apply Z.leb_le in Hle.
  task_run; split; solve [reflexivity|discriminate].
Qed.

Lemma resume_dict (p : Pending) (o : Outcome ChatCompletion) (w : World)
    (d : gmap Z Session) :
  (exec (handle_message_resume p o) w d).1.2
  = match d !! pending_user p with
    | Some s => <[pending_user p := resumed_session o s]> d
    | None => d
    end.
Proof.
  unfold resumed_session.
  destruct o as [r|e];
    [destruct (choices r) as [|answer others] eqn:Hc;
     [|destruct (usage_total_tokens r) as [n|] eqn:Hu]|];
    destruct (d !! pending_user p) as [s|] eqn:Hd;
    task_run; rewrite ?insert_insert_eq;
    try reflexivity; symmetry; apply insert_id; assumption.
Qed.

Lemma finished_cases (m : Message) (w : World) (d : gmap Z Session) :
  (forall p, (exec (handle_message_begin m) w d).1.1 <> Ret (Some p)) ->
  (exec (handle_message_begin m) w d).1.2 = (exec (handle_message m) w d).1.2 /\
  (exec (handle_message_begin m) w d).2 = (exec (handle_message m) w d).2.
Proof.
  intros Hp. rewrite handle_message_segments.
  destruct (exec (handle_message_begin m) w d) as [[[[p|]|e] d1] tr1];
    cbn in *; [exfalso; apply (Hp p); reflexivity| |]; split; reflexivity.
Qed.

(** The first segment either suspends a message of a user with a positive
    budget, or finishes the handler with the dictionary [dispatch] gives. *)
Lemma arrive_cases (u : Update) (w : World) (d : gmap Z Session) :
  (exists m uid s,
     u = FreeText m /\ from_user_id m = Some uid /\ d !! uid = Some s /\
     0 < tokens s /\
     exec (arrive u) w d
     = (Ret (Some (mkPending uid (text m) (request s (text m)))),
        half_recorded d uid s (text m),
        [Log INFO (NewMessageFrom uid (text m));
         CompletionsCreate (request s (text m))])) \/
  ((forall p, (exec (arrive u) w d).1.1 <> Ret (Some p)) /\
   (exec (arrive u) w d).1.2 = (exec (dispatch u) w d).1.2 /\
   (exec (arrive u) w d).2 = (exec (dispatch u) w d).2).
Proof.
  destruct u as [m|m|m|m]; cbn [arrive].
  1-3: right; match goal with |- context [exec (?h ;; _)] =>
         destruct (exec_then_none h w d) as (Hd & Ht & Hp) end;
       repeat split; assumption.
  cbn [dispatch].
  assert (Hfin : (forall uid s, from_user_id m = Some uid -> d !! uid = Some s ->
                    tokens s <= 0) ->
                 (forall p, (exec (handle_message_begin m) w d).1.1 <> Ret (Some p)) /\
                 (exec (handle_message_begin m) w d).1.2
                   = (exec (handle_message m) w d).1.2 /\
                 (exec (handle_message_begin m) w d).2
                   = (exec (handle_message m) w d).2).
  { intros Hb. destruct (begin_finished m w d Hb) as [_ Hp].
    split; [exact Hp|]. apply finished_cases, Hp. }
  destruct (from_user_id m) as [uid|] eqn:Hid;
    [|right; apply Hfin; intros; discriminate].
  destruct (d !! uid) as [s|] eqn:Hs;
    [|right; apply Hfin; intros; simplify_eq].
  destruct (Z_lt_le_dec 0 (tokens s)) as [Hpos|Hle].
  - left. exists m, uid, s. repeat split; try assumption.
    apply begin_suspended; assumption.
  - right. apply Hfin. intros uid' s' Hu Hs'. simplify_eq. assumption.
Qed.

Lemma run_tasks_app (ss1 ss2 : list Step) (c : Config) :
  run_tasks (ss1 ++ ss2) c = run_tasks ss2 (run_tasks ss1 c).
Proof.
  revert c. induction ss1 as [|st ss1 IH]; intros c; [reflexivity|].
  cbn [app run_tasks]. apply IH.
Qed.

Lemma serial_steps_dispatch (u : Update) (w : World) (d : gmap Z Session) :
  run_tasks (serial_steps u w d) (mkConfig d [])
  = mkConfig (exec (dispatch u) w d).1.2 [].
Proof.
  unfold serial_steps.
  destruct (arrive_cases u w d) as [(m & uid & s & -> & Hid & Hs & Hpos & He)|
                                    (Hp & Hd & _)].
  - rewrite He. cbn [fst snd run_tasks step_exec dict waiting].
    rewrite He. cbn [fst snd app lookup list_lookup pending_request].
    cbn [dispatch]. rewrite handle_message_segments.
    cbn [arrive] in He. rewrite He. cbn [fst snd delete list_delete pending_request].
    reflexivity.
  - destruct ((exec (arrive u) w d).1.1) as [[p|]|e] eqn:Ho;
      [exfalso; apply (Hp p); reflexivity| |];
      cbn [run_tasks step_exec dict waiting]; rewrite Ho, Hd; reflexivity.
Qed.

(** Every serial run is a run of the tasks. *)
Lemma run_is_a_schedule (us : list (Update * World)) (d : gmap Z Session) :
  run_tasks (serial_schedule us d) (mkConfig d []) = mkConfig (run us d) [].
Proof.
  revert d. induction us as [|[u w] us IH]; intros d; [reflexivity|].
  cbn [serial_schedule run]. rewrite run_tasks_app, serial_steps_dispatch.
  apply IH.
Qed.

Lemma run_tasks_snoc (ss : list Step) (st : Step) (c : Config) :
  run_tasks (ss ++ [st]) c = (step_exec st (run_tasks ss c)).1.
Proof. rewrite run_tasks_app. reflexivity. Qed.

(** A resumed handler logs [NewStats] only for its own user, and then the
    budget has gone down by the logged usage from what it was when the
    handler was resumed. *)
Lemma resume_new_stats (p : Pending) (o : Outcome ChatCompletion) (w : World)
    (d : gmap Z Session) (uid n : Z) (len : nat) :
  Log INFO (NewStats uid n len) ∈ (exec (handle_message_resume p o) w d).2 ->
  uid = pending_user p /\
  exists s s',
    d !! uid = Some s /\
    (exec (handle_message_resume p o) w d).1.2 !! uid = Some s' /\
    tokens s' = tokens s - n.
Proof.
  destruct o as [r|e];
    [destruct (choices r) as [|answer others] eqn:Hc;
     [|destruct (usage_total_tokens r) as [k|] eqn:Hu]|];
    destruct (d !! pending_user p) as [s|] eqn:Hd;
    task_run; intros H; trace_inv H.
  all: injection H as -> -> _; split; [reflexivity|].
  all: eexists; eexists; rewrite ?lookup_insert_eq; repeat split; eauto.
Qed.

Lemma step_new_stats (st : Step) (c : Config) (uid n : Z) (len : nat) :
  Log INFO (NewStats uid n len) ∈ (step_exec st c).2 ->
  exists s s',
    dict c !! uid = Some s /\
    dict (step_exec st c).1 !! uid = Some s' /\
    tokens s' = tokens s - n.
Proof.
  destruct st as [u w|i o w]; cbn [step_exec].
  - cbn [fst snd dict].
    destruct (arrive_cases u w (dict c))
      as [(m & v & s & -> & Hid & Hs & Hpos & He)|(Hp & Hd & Ht)].
    + rewrite He. cbn [fst snd]. intros H. trace_inv H.
    + rewrite Hd, Ht. intros H.
      destruct (dispatch_new_stats u w (dict c) uid n len H)
        as (s & s' & Hs & Hs' & _ & Heq).
      exists s, s'. auto.
  - destruct (waiting c !! i) as [p|] eqn:Hi; cbn [fst snd dict].
    + intros H. apply resume_new_stats in H as [_ H]. exact H.
    + intros H. apply elem_of_nil in H. contradiction.
Qed.

(** ** The budget when a completion is recorded *)

(** After [/start] and a message whose completion costs 1500 tokens, the
    budget of user 7 is -500 right after the completion was recorded. *)
Lemma budget_negative_after_recorded_completion :
  Log INFO (NewStats 7 1500 2)
    ∈ (step_exec (Complete 0 (Ret (mkChatCompletion ["Arrr"] (Some 1500)))
                           quiet_world)
                 (run_tasks start_and_one_message initial)).2 /\
  tokens <$> dict (run_tasks
                     (start_and_one_message
                        ++ [Complete 0 (Ret (mkChatCompletion ["Arrr"] (Some 1500)))
                                     quiet_world])
                     initial) !! 7
    = Some (-500) /\
  ~ 0 <= -500.
Proof.
  split; [|split].
  - vm_compute. set_solver.
  - reflexivity.
  - lia.
Qed.

(** C8, as the code has it.  After any sequence of segments of handlers,
    overlapping or not, when the next segment records a successful
    completion with usage [n] for a user, that user's budget right after
    is the budget right before that segment minus [n]: nothing keeps it
    from being negative, and it is negative as soon as [n] exceeds the
    budget there was. *)
Theorem budget_after_recorded_completion (ss : list Step) (st : Step)
    (uid n : Z) (len : nat) :
  Log INFO (NewStats uid n len) ∈ (step_exec st (run_tasks ss initial)).2 ->
  exists s s',
    dict (run_tasks ss initial) !! uid = Some s /\
    dict (run_tasks (ss ++ [st]) initial) !! uid = Some s' /\
    tokens s' = tokens s - n /\
    (tokens s < n -> tokens s' < 0).
Proof.
  intros H. rewrite run_tasks_snoc.
  destruct (step_new_stats _ _ _ _ _ H) as (s & s' & Hs & Hs' & Heq).
  exists s, s'. repeat split; try assumption. lia.
Qed.

Lemma budget_after_recorded_completion_witness :
  exists s s',
    dict (run_tasks start_and_one_message initial) !! 7 = Some s /\
    dict (run_tasks
            (start_and_one_message
               ++ [Complete 0 (Ret (mkChatCompletion ["Arrr"] (Some 1500)))
                            quiet_world])
            initial) !! 7 = Some s' /\
    tokens s' = tokens s - 1500 /\
    (tokens s < 1500 -> tokens s' < 0).
Proof.
  apply (budget_after_recorded_completion start_and_one_message
           (Complete 0 (Ret (mkChatCompletion ["Arrr"] (Some 1500))) quiet_world)
           7 1500 2).
  vm_compute. set_solver.
Defined.

(** ** Invariants of the tasks *)

Lemma dispatch_no_system_turn (u : Update) (w : World) (d : gmap Z Session) :
  (forall v s, d !! v = Some s -> no_system_turn (context s)) ->
  forall v s, (exec (dispatch u) w d).1.2 !! v = Some s ->
              no_system_turn (context s).
Proof.
  unfold no_system_turn.
  intros Hd v s. destruct (decide (sender u = Some v)) as [Hs|Hs].
  - py_sender u Hs; intros Hv; simplify_eq; cbn [context];
      try (eapply Hd; eassumption);
      rewrite ?Forall_app, ?Forall_cons, ?Forall_nil; cbn [role];
      repeat split; try discriminate; try (eapply Hd; eassumption);
      exact I.
  - rewrite dispatch_frame by assumption. apply Hd.
Qed.

Lemma step_no_system_turn (st : Step) (c : Config) :
  (forall v s, dict c !! v = Some s -> no_system_turn (context s)) ->
  forall v s, dict (step_exec st c).1 !! v = Some s ->
              no_system_turn (context s).
Proof.
  intros Hc v s. destruct st as [u w|i o w]; cbn [step_exec].
  - cbn [fst dict].
    destruct (arrive_cases u w (dict c))
      as [(m & uid & s0 & -> & Hid & Hs & Hpos & He)|(Hp & Hd & Ht)].
    + rewrite He. cbn [fst snd]. unfold half_recorded.
      destruct (decide (uid = v)) as [->|Hne].
      * rewrite lookup_insert_eq. intros [= <-]. cbn [context].
        apply Forall_app. split; [apply (Hc v s0 Hs)|].
        repeat constructor. discriminate.
      * rewrite lookup_insert_ne by assumption. apply Hc.
    + rewrite Hd. apply dispatch_no_system_turn, Hc.
  - destruct (waiting c !! i) as [p|] eqn:Hi; cbn [fst dict]; [|apply Hc].
    rewrite resume_dict.
    destruct (dict c !! pending_user p) as [s0|] eqn:Hs; [|apply Hc].
    destruct (decide (pending_user p = v)) as [<-|Hne].
    + rewrite lookup_insert_eq. intros [= <-].
      pose proof (Hc _ _ Hs) as H0. unfold resumed_session.
      destruct o as [r|e]; [|exact H0].
      destruct (choices r) as [|answer others]; [exact H0|].
      cbn [context]. apply Forall_app. split; [exact H0|].
      repeat constructor. discriminate.
    + rewrite lookup_insert_ne by assumption. apply Hc.
Qed.

(** X4. No stored turn ever has the [system] role: from the empty
    dictionary, after any sequence of segments of handlers, overlapping or
    not, every stored history holds user and assistant turns only; the
    persona turn exists in requests alone. *)
Theorem run_tasks_no_system_turn (ss : list Step) (v : Z) (s : Session) :
  dict (run_tasks ss initial) !! v = Some s ->
  no_system_turn (context s).
Proof.
  revert v s.
  assert (Hgen : forall c,
             (forall v s, dict c !! v = Some s -> no_system_turn (context s)) ->
             forall v s, dict (run_tasks ss c) !! v = Some s ->
                         no_system_turn (context s)).
  { induction ss as [|st ss IH]; intros c Hc; [exact Hc|].
    cbn [run_tasks]. apply IH. apply step_no_system_turn, Hc. }
  apply Hgen. intros v s Hv. cbn in Hv. rewrite lookup_empty in Hv. discriminate.
Qed.

Lemma run_tasks_no_system_turn_witness :
  no_system_turn (context (mkSession [mkTurn assistant "Arrr"] 990)).
Proof.
  apply (run_tasks_no_system_turn
           [Arrive (CommandStart (mkMessage (Some 7) "/start")) quiet_world;
            Arrive (FreeText (mkMessage (Some 7) "hi")) quiet_world;
            Arrive (CommandClean (mkMessage (Some 7) "/clean")) quiet_world;
            Complete 0 (Ret (mkChatCompletion ["Arrr"] (Some 10))) quiet_world]
           7).
  reflexivity.
Defined.

Lemma step_stays_blocked (st : Step) (c : Config) (v : Z) (s : Session) :
  ~ step_tokens_from v st ->
  Forall (fun p => pending_user p <> v) (waiting c) ->
  dict c !! v = Some s ->
  tokens s <= 0 ->
  Forall (fun p => pending_user p <> v) (waiting (step_exec st c).1) /\
  exists s', dict (step_exec st c).1 !! v = Some s' /\ tokens s' = tokens s.
Proof.
  intros Htok Hw Hv Hle. destruct st as [u w|i o w]; cbn [step_exec].
  - cbn [fst dict waiting].
    destruct (arrive_cases u w (dict c))
      as [(m & uid & s0 & -> & Hid & Hs & Hpos & He)|(Hp & Hd & Ht)].
    + rewrite He. cbn [fst snd]. unfold half_recorded.
      assert (uid <> v) as Hne by (intros ->; simplify_eq; lia).
      split.
      * apply Forall_app. split; [exact Hw|]. repeat constructor. exact Hne.
      * exists s. rewrite lookup_insert_ne by assumption. auto.
    + rewrite Hd. split.
      * destruct ((exec (arrive u) w (dict c)).1.1) as [[p|]|e] eqn:Ho;
          [exfalso; apply (Hp p); reflexivity|exact Hw|exact Hw].
      * assert (Hu : ~ tokens_from v u).
        { intros Hu. apply Htok. exists u, w. auto. }
        destruct (dispatch_stays_blocked u w (dict c) v s Hu Hv Hle)
          as (s' & Hs' & Heq & _).
        exists s'. auto.
  - destruct (waiting c !! i) as [p|] eqn:Hi; cbn [fst dict waiting].
    + assert (pending_user p <> v) as Hne.
      { rewrite Forall_forall in Hw. apply Hw.
        apply list_elem_of_lookup. eauto. }
      split.
      * apply Forall_delete, Hw.
      * exists s. rewrite resume_dict.
        destruct (dict c !! pending_user p);
          rewrite ?lookup_insert_ne by assumption; auto.
    + split; [exact Hw|]. exists s. auto.
Qed.

(** X6. Only the user's own [/tokens] lifts a block: a user whose budget
    is at most 0 and who has no request in flight keeps exactly that
    budget over any sequence of segments, overlapping or not, that
    contains no [/tokens] from that user. *)
Theorem run_tasks_stays_blocked (ss : list Step) (c : Config) (v : Z)
    (s : Session) :
  Forall (fun st => ~ step_tokens_from v st) ss ->
  Forall (fun p => pending_user p <> v) (waiting c) ->
  dict c !! v = Some s ->
  tokens s <= 0 ->
  exists s', dict (run_tasks ss c) !! v = Some s' /\ tokens s' = tokens s.
Proof.
  intros Hss. revert c s.
  induction Hss as [|st ss Hst _ IH]; intros c s Hw Hv Hle.
  - exists s. auto.
  - cbn [run_tasks].
    destruct (step_stays_blocked st c v s Hst Hw Hv Hle)
      as (Hw1 & s1 & Hv1 & Heq1).
    destruct (IH _ _ Hw1 Hv1) as (s2 & Hv2 & Heq2); [lia|].
    exists s2. split; [assumption|lia].
Qed.

Lemma complete_not_tokens (v : Z) (i : nat) (o : Outcome ChatCompletion)
    (w : World) : ~ step_tokens_from v (Complete i o w).
Proof. intros (u & w' & H & _). discriminate H. Defined.

Lemma arrive_free_text_not_tokens (v : Z) (m : Message) (w : World) :
  ~ step_tokens_from v (Arrive (FreeText m) w).
Proof. intros (u & w' & [= <- _] & (m' & H & _)). discriminate H. Defined.

Lemma arrive_clean_not_tokens (v : Z) (m : Message) (w : World) :
  ~ step_tokens_from v (Arrive (CommandClean m) w).
Proof. intros (u & w' & [= <- _] & (m' & H & _)). discriminate H. Defined.

Lemma run_tasks_stays_blocked_witness :
  exists s',
    dict (run_tasks
            [Arrive (FreeText (mkMessage (Some 8) "hi")) quiet_world;
             Arrive (FreeText (mkMessage (Some 7) "hi")) quiet_world;
             Arrive (CommandClean (mkMessage (Some 7) "/clean")) quiet_world;
             Complete 0 (Ret (mkChatCompletion ["Arrr"] (Some 10))) quiet_world]
            (mkConfig (<[7 := mkSession [mkTurn user "a"] (-12)]>
                         {[8 := mkSession [] 5]}) [])) !! 7 = Some s' /\
    tokens s' = tokens (mkSession [mkTurn user "a"] (-12)).
Proof.
  apply (run_tasks_stays_blocked
           [Arrive (FreeText (mkMessage (Some 8) "hi")) quiet_world;
            Arrive (FreeText (mkMessage (Some 7) "hi")) quiet_world;
            Arrive (CommandClean (mkMessage (Some 7) "/clean")) quiet_world;
            Complete 0 (Ret (mkChatCompletion ["Arrr"] (Some 10))) quiet_world]
           (mkConfig (<[7 := mkSession [mkTurn user "a"] (-12)]>
                        {[8 := mkSession [] 5]}) []) 7).
  - repeat constructor;
      solve [apply complete_not_tokens | apply arrive_free_text_not_tokens
            | apply arrive_clean_not_tokens].
  - constructor.
  - reflexivity.
  - cbn. lia.
Defined.

(** ** What overlapping does *)

Lemma step_arrive_suspended (m : Message) (w : World) (d : gmap Z Session)
    (ws : list Pending) (uid : Z) (s : Session) :
  from_user_id m = Some uid -> d !! uid = Some s -> 0 < tokens s ->
  (step_exec (Arrive (FreeText m) w) (mkConfig d ws)).1
  = mkConfig (half_recorded d uid s (text m))
             (ws ++ [mkPending uid (text m) (request s (text m))]).
Proof.
  intros Hid Hs Hpos. cbn [step_exec arrive dict waiting].
  rewrite (begin_suspended m w d uid s Hid Hs Hpos). reflexivity.
Qed.

Lemma step_arrive_command (u : Update) (w : World) (d : gmap Z Session)
    (ws : list Pending) :
  (forall m, u <> FreeText m) ->
  (step_exec (Arrive u w) (mkConfig d ws)).1
  = mkConfig (exec (dispatch u) w d).1.2 ws.
Proof.
  intros Hcmd. cbn [step_exec dict waiting fst].
  destruct (arrive_cases u w d)
    as [(m & uid & s & -> & _)|(Hp & Hd & _)];
    [exfalso; apply (Hcmd m); reflexivity|].
  rewrite Hd.
  destruct ((exec (arrive u) w d).1.1) as [[p|]|e];
    [exfalso; apply (Hp p); reflexivity| |]; reflexivity.
Qed.

Lemma step_complete (p : Pending) (rest : list Pending)
    (o : Outcome ChatCompletion) (w : World) (d : gmap Z Session) (s : Session) :
  d !! pending_user p = Some s ->
  (step_exec (Complete 0 o w) (mkConfig d (p :: rest))).1
  = mkConfig (<[pending_user p := resumed_session o s]> d) rest.
Proof.
  intros Hs. cbn [step_exec waiting dict lookup list_lookup fst].
  rewrite resume_dict, Hs. reflexivity.
Qed.

(** X20. The guard does not see requests in flight: when a second message
    of a user arrives while the first awaits its response, both pass the
    guard on the same positive budget, both are charged, and the history
    holds the two user turns followed by the two assistant turns. *)
Theorem overlapping_messages_both_charged (m1 m2 : Message)
    (w1 w2 w3 w4 : World) (d : gmap Z Session) (uid : Z) (s : Session)
    (r1 r2 : ChatCompletion) (a1 a2 : string) (l1 l2 : list string)
    (n1 n2 : Z) :
  from_user_id m1 = Some uid ->
  from_user_id m2 = Some uid ->
  d !! uid = Some s ->
  0 < tokens s ->
  choices r1 = a1 :: l1 -> usage_total_tokens r1 = Some n1 ->
  choices r2 = a2 :: l2 -> usage_total_tokens r2 = Some n2 ->
  dict (run_tasks [Arrive (FreeText m1) w1; Arrive (FreeText m2) w2;
                   Complete 0 (Ret r1) w3; Complete 0 (Ret r2) w4]
                  (mkConfig d [])) !! uid
  = Some (mkSession (context s ++ [mkTurn user (text m1); mkTurn user (text m2);
                                   mkTurn assistant a1; mkTurn assistant a2])
                    (tokens s - n1 - n2)).
Proof.
  intros H1 H2 Hs Hpos Hc1 Hu1 Hc2 Hu2. cbn [run_tasks].
  rewrite (step_arrive_suspended m1 w1 d [] uid s H1 Hs Hpos).
  cbn [app]. unfold half_recorded.
  rewrite (step_arrive_suspended m2 w2 _ _ uid
             (mkSession (context s ++ [mkTurn user (text m1)]) (tokens s)) H2);
    [|apply lookup_insert_eq|exact Hpos].
  cbn [app context tokens]. unfold half_recorded.
  cbn [context tokens]. rewrite insert_insert_eq.
  erewrite step_complete by (cbn [pending_user]; apply lookup_insert_eq).
  erewrite step_complete by (cbn [pending_user]; apply lookup_insert_eq).
  cbn [dict pending_user]. rewrite lookup_insert_eq.
  unfold resumed_session. rewrite Hc1, Hu1, Hc2, Hu2. cbn [context tokens].
  rewrite <- !app_assoc. reflexivity.
Qed.

Lemma overlapping_messages_both_charged_witness :
  dict (run_tasks
          [Arrive (FreeText (mkMessage (Some 7) "hi")) quiet_world;
           Arrive (FreeText (mkMessage (Some 7) "yo")) quiet_world;
           Complete 0 (Ret (mkChatCompletion ["Arrr"] (Some 10))) quiet_world;
           Complete 0 (Ret (mkChatCompletion ["Aye"] (Some 10))) quiet_world]
          (mkConfig {[7 := mkSession [] 5]} [])) !! 7
  = Some (mkSession (context (mkSession [] 5)
                       ++ [mkTurn user "hi"; mkTurn user "yo";
                           mkTurn assistant "Arrr"; mkTurn assistant "Aye"])
                    (tokens (mkSession [] 5) - 10 - 10)).
Proof.
  apply (overlapping_messages_both_charged
           (mkMessage (Some 7) "hi") (mkMessage (Some 7) "yo")
           quiet_world quiet_world quiet_world quiet_world
           {[7 := mkSession [] 5]} 7 (mkSession [] 5)
           (mkChatCompletion ["Arrr"] (Some 10))
           (mkChatCompletion ["Aye"] (Some 10)) "Arrr" "Aye" [] [] 10 10);
    reflexivity.
Defined.

(** X21. A [/clean] handled while a message of the same user awaits its
    response empties the history under it: the user turn of that message
    is lost, the assistant turn is appended to the empty history and the
    budget is charged, so the stored history starts with an assistant
    turn. *)
Theorem clean_during_request (m mc : Message) (w1 w2 w3 : World)
    (d : gmap Z Session) (uid : Z) (s : Session) (r : ChatCompletion)
    (answer : string) (others : list string) (n : Z) :
  from_user_id m = Some uid ->
  from_user_id mc = Some uid ->
  d !! uid = Some s ->
  0 < tokens s ->
  choices r = answer :: others -> usage_total_tokens r = Some n ->
  dict (run_tasks [Arrive (FreeText m) w1; Arrive (CommandClean mc) w2;
                   Complete 0 (Ret r) w3]
                  (mkConfig d [])) !! uid
  = Some (mkSession [mkTurn assistant answer] (tokens s - n)).
Proof.
  intros Hm Hc Hs Hpos Hch Hu. cbn [run_tasks].
  rewrite (step_arrive_suspended m w1 d [] uid s Hm Hs Hpos).
  cbn [app]. unfold half_recorded.
  rewrite step_arrive_command by discriminate. cbn [dispatch].
  rewrite (clean_command_dict mc w2 _ uid _ Hc (lookup_insert_eq _ _ _)).
  cbn [tokens]. rewrite insert_insert_eq.
  erewrite step_complete by (cbn [pending_user]; apply lookup_insert_eq).
  cbn [dict pending_user]. rewrite lookup_insert_eq.
  unfold resumed_session. rewrite Hch, Hu. reflexivity.
Qed.

Lemma clean_during_request_witness :
  dict (run_tasks
          [Arrive (FreeText (mkMessage (Some 7) "hi")) quiet_world;
           Arrive (CommandClean (mkMessage (Some 7) "/clean")) quiet_world;
           Complete 0 (Ret (mkChatCompletion ["Arrr"] (Some 10))) quiet_world]
          (mkConfig one_user [])) !! 7
  = Some (mkSession [mkTurn assistant "Arrr"] (tokens (mkSession [] 1000) - 10)).
Proof.
  apply (clean_during_request
           (mkMessage (Some 7) "hi") (mkMessage (Some 7) "/clean")
           quiet_world quiet_world quiet_world one_user 7 (mkSession [] 1000)
           (mkChatCompletion ["Arrr"] (Some 10)) "Arrr" [] 10);
    reflexivity.
Defined.
